(** * lightning-flash: video classification data module, semantic
      segmentation task and the availability flags

    A shallow embedding of
      - [flash/utils/imports.py],
      - [flash/video/classification/data.py],
      - [flash/vision/segmentation/model.py],
    with Python objects as records, dictionaries as [gmap string _],
    [None]-able arguments as [option], and exceptions as an explicit
    outcome type that remembers where the exception was raised. *)

From Stdlib Require Import ZArith.
From stdpp Require Import gmap strings list fin_maps.

Local Open Scope string_scope.
Local Open Scope list_scope.
Local Open Scope nat_scope.

#[local] Set Warnings "-clear-no-such-hyp".

(** ** Python values, exceptions and outcomes *)

(** The exceptions the embedded code raises itself.  [ModuleNotFoundError]
    is a subclass of [ImportError] in Python. *)
Inductive exception :=
| ImportError (name from_module : string)
| ModuleNotFoundError (msg : string)
| MisconfigurationException (msg : string)
| TypeError (msg : string)
| KeyError (key : string)
| NameError (name : string)
| ExternalError (msg : string).

Definition is_ImportError (e : exception) : bool :=
  match e with
  | ImportError _ _ | ModuleNotFoundError _ => true
  | _ => false
  end.

(** Plain values stored in attributes and keyword dictionaries. *)
Inductive value :=
| VNone
| VBool (b : bool)
| VInt (n : Z)
| VStr (s : string).

(** Result of a call into code that is not part of the embedded files. *)
Inductive result (A : Type) :=
| Ok (a : A)
| Err (e : exception).
Arguments Ok {A} a.
Arguments Err {A} e.

(** ** Module import ([flash/utils/imports.py] and the header of
       [flash/video/classification/data.py]) *)

Module Imports.

(** What the interpreter finds outside the embedded files.  Importing a
    module either succeeds ([None]) or raises an exception, which then
    leaves the import statement unchanged: [ModuleNotFoundError] naming the
    package that is not installed, or whatever the module raises while it
    initialises.  The environment also says which names a module exports
    and what [pytorch_lightning]'s [_module_available] answers. *)
Record environment := {
  import_error : string -> option exception;
  provides : string -> string -> bool;
  _module_available : string -> bool;
}.

(** A module-level statement, with its line number. *)
Inductive simple_stmt :=
| SImport (line : nat) (module : string) (bound_as : string)
| SFromImport (line : nat) (module : string) (names : list string)
| SFromImportAs (line : nat) (module : string) (name bound_as : string)
| SAssignFlag (line : nat) (name : string) (probe : string)
| SAssign (line : nat) (name : string)
| SClass (line : nat) (name : string).

Inductive stmt :=
| Simple (s : simple_stmt)
| SIf (line : nat) (flag : string) (then_ else_ : list simple_stmt).

(** The names a module body has bound so far. *)
Abbreviation namespace := (gmap string value).

(** Outcome of executing a module body: the namespace it built, or the line
    and exception at which it stopped together with the namespace built so
    far. *)
Inductive module_outcome :=
| Loaded (ns : namespace)
| Raised (line : nat) (e : exception) (ns : namespace).

(** [flash/utils/imports.py], lines 1-9. *)
Definition imports_py : list stmt :=
  [ Simple (SFromImport 1 "pytorch_lightning.utilities.imports" ["_module_available"]);
    Simple (SAssignFlag 3 "_TABNET_AVAILABLE" "pytorch_tabnet");
    Simple (SAssignFlag 4 "_KORNIA_AVAILABLE" "kornia");
    Simple (SAssignFlag 5 "_COCO_AVAILABLE" "pycocotools");
    Simple (SAssignFlag 6 "_TIMM_AVAILABLE" "timm");
    Simple (SAssignFlag 7 "_TORCHVISION_AVAILABLE" "torchvision");
    Simple (SAssignFlag 8 "_MATPLOTLIB_AVAILABLE" "matplotlib");
    Simple (SAssignFlag 9 "_TRANSFORMERS_AVAILABLE" "transformers") ].

(** [flash/video/classification/data.py], the module-level statements:
    imports on lines 14-31, the two conditional import blocks, the type
    alias and the two class definitions. *)
Definition data_py : list stmt :=
  [ Simple (SImport 14 "pathlib" "pathlib");
    Simple (SFromImport 15 "typing"
      ["Any"; "Callable"; "Dict"; "Iterable"; "List"; "Optional"; "Sequence";
       "Tuple"; "Type"; "Union"]);
    Simple (SImport 17 "numpy" "np");
    Simple (SImport 18 "torch" "torch");
    Simple (SFromImport 19 "pytorch_lightning.utilities.exceptions"
      ["MisconfigurationException"]);
    Simple (SFromImport 20 "torch" ["nn"]);
    Simple (SFromImport 21 "torch.nn" ["Module"]);
    Simple (SFromImport 22 "torch.utils.data" ["Dataset"; "RandomSampler"; "Sampler"]);
    Simple (SFromImport 23 "torch.utils.data._utils.collate" ["default_collate"]);
    Simple (SFromImport 24 "torch.utils.data.dataset" ["IterableDataset"]);
    Simple (SFromImport 25 "torchvision.datasets.folder"
      ["has_file_allowed_extension"; "IMG_EXTENSIONS"; "make_dataset"]);
    Simple (SFromImport 27 "flash.data.auto_dataset" ["AutoDataset"]);
    Simple (SFromImport 28 "flash.data.data_module" ["DataModule"]);
    Simple (SFromImport 29 "flash.data.data_pipeline" ["DataPipeline"]);
    Simple (SFromImport 30 "flash.data.process" ["Preprocess"]);
    Simple (SFromImport 31 "flash.utils.imports"
      ["_KORNIA_AVAILABLE"; "_PYTORCHVIDEO_AVAILABLE"]);
    SIf 33 "_KORNIA_AVAILABLE"
      [ SImport 34 "kornia.augmentation" "K";
        SImport 35 "kornia.geometry.transform" "T" ]
      [ SFromImportAs 37 "torchvision" "transforms" "T" ];
    SIf 39 "_PYTORCHVIDEO_AVAILABLE"
      [ SFromImport 40 "pytorchvideo.data.clip_sampling"
          ["ClipSampler"; "make_clip_sampler"];
        SFromImport 41 "pytorchvideo.data.encoded_video_dataset"
          ["EncodedVideoDataset"; "labeled_encoded_video_dataset"] ]
      [];
    Simple (SAssign 43 "_PYTORCHVIDEO_DATA");
    Simple (SClass 46 "VideoClassificationPreprocess");
    Simple (SClass 94 "VideoClassificationData") ].

(** The classes [data.py] defines. *)
Definition data_py_classes : list string :=
  ["VideoClassificationPreprocess"; "VideoClassificationData"].

(** Modules whose source is embedded; every other module is looked up in
    the environment.  The parent package of an embedded module comes from
    the environment. *)
Definition embedded_source (module : string) : option (string * list stmt) :=
  if String.eqb module "flash.utils.imports"
  then Some ("flash.utils", imports_py) else None.

Section Exec.
Variable env : environment.

(** [from module import n1, n2, ...] against a loaded module: the names
    are fetched left to right, the first missing one raises
    [ImportError]. *)
Fixpoint bind_names (line : nat) (module : string)
    (has : string -> option value) (names : list string) (ns : namespace)
  : module_outcome :=
  match names with
  | [] => Loaded ns
  | n :: rest =>
      match has n with
      | Some v => bind_names line module has rest (<[n := v]> ns)
      | None => Raised line (ImportError n module) ns
      end
  end.

Definition external_lookup (module name : string) : option value :=
  if provides env module name then Some VNone else None.

(** One simple statement; [load] resolves [from module import names] for
    the module being executed. *)
Definition exec_simple_with
    (load : nat -> string -> list string -> namespace -> module_outcome)
    (s : simple_stmt) (ns : namespace) : module_outcome :=
  match s with
  | SImport line module bound_as =>
      match import_error env module with
      | None => Loaded (<[bound_as := VNone]> ns)
      | Some e => Raised line e ns
      end
  | SFromImport line module names => load line module names ns
  | SFromImportAs line module name bound_as =>
      match load line module [name] ∅ with
      | Loaded got =>
          match got !! name with
          | Some v => Loaded (<[bound_as := v]> ns)
          | None => Raised line (ImportError name module) ns
          end
      | Raised l e _ => Raised l e ns
      end
  | SAssignFlag line name probe =>
      Loaded (<[name := VBool (_module_available env probe)]> ns)
  | SAssign line name => Loaded (<[name := VNone]> ns)
  | SClass line name => Loaded (<[name := VNone]> ns)
  end.

Fixpoint exec_simples
    (load : nat -> string -> list string -> namespace -> module_outcome)
    (body : list simple_stmt) (ns : namespace) : module_outcome :=
  match body with
  | [] => Loaded ns
  | s :: rest =>
      match exec_simple_with load s ns with
      | Loaded ns' => exec_simples load rest ns'
      | Raised line e ns' => Raised line e ns'
      end
  end.

(** Python truth value of a module-level flag. *)
Definition truthy (v : value) : bool :=
  match v with
  | VNone => false
  | VBool b => b
  | VInt n => negb (Z.eqb n 0)
  | VStr s => negb (String.eqb s "")
  end.

(** A statement; the test of an [if] reads a flag, and reading an unbound
    name is a [NameError]. *)
Definition exec_stmt
    (load : nat -> string -> list string -> namespace -> module_outcome)
    (s : stmt) (ns : namespace) : module_outcome :=
  match s with
  | Simple s => exec_simple_with load s ns
  | SIf line flag then_ else_ =>
      match ns !! flag with
      | Some v => exec_simples load (if truthy v then then_ else else_) ns
      | None => Raised line (NameError flag) ns
      end
  end.

Fixpoint exec_body
    (load : nat -> string -> list string -> namespace -> module_outcome)
    (body : list stmt) (ns : namespace) : module_outcome :=
  match body with
  | [] => Loaded ns
  | s :: rest =>
      match exec_stmt load s ns with
      | Loaded ns' => exec_body load rest ns'
      | Raised line e ns' => Raised line e ns'
      end
  end.

(** [from module import names] where [module] lives in the environment. *)
Definition load_external (line : nat) (module : string) (names : list string)
    (ns : namespace) : module_outcome :=
  match import_error env module with
  | None => bind_names line module (external_lookup module) names ns
  | Some e => Raised line e ns
  end.

(** Executing an embedded module that itself imports only from the
    environment ([imports.py]). *)
Definition exec_leaf_module (body : list stmt) : module_outcome :=
  exec_body load_external body ∅.

(** [from module import names] as [data.py] sees it: an embedded module
    is executed (an exception in its body propagates to the importing
    line), any other module is looked up in the environment. *)
Definition load_module (line : nat) (module : string) (names : list string)
    (ns : namespace) : module_outcome :=
  match embedded_source module with
  | Some (parent, body) =>
      match import_error env parent with
      | None =>
          match exec_leaf_module body with
          | Loaded mod_ns => bind_names line module (fun n => mod_ns !! n) names ns
          | Raised _ e _ => Raised line e ns
          end
      | Some e => Raised line e ns
      end
  | None => load_external line module names ns
  end.

(** Importing [flash/video/classification/data.py]. *)
Definition import_data_py : module_outcome := exec_body load_module data_py ∅.

(** Importing [flash/utils/imports.py]. *)
Definition import_imports_py : module_outcome := exec_leaf_module imports_py.
End Exec.

(** The names a module body assigns availability flags to. *)
Definition flags_of (body : list stmt) : list string :=
  omap (fun s => match s with
                 | Simple (SAssignFlag _ name _) => Some name
                 | _ => None
                 end) body.

(** The availability flags of a module body with the package each one
    probes. *)
Definition flag_probes (body : list stmt) : list (string * string) :=
  omap (fun s => match s with
                 | Simple (SAssignFlag _ name probe) => Some (name, probe)
                 | _ => None
                 end) body.

(** Every name a module body can bind at its top level. *)
Definition simple_names (s : simple_stmt) : list string :=
  match s with
  | SImport _ _ a => [a]
  | SFromImport _ _ names => names
  | SFromImportAs _ _ _ a => [a]
  | SAssignFlag _ n _ | SAssign _ n | SClass _ n => [n]
  end.

Definition bound_names (body : list stmt) : list string :=
  flat_map (fun s => match s with
                     | Simple s => simple_names s
                     | SIf _ _ t e =>
                         (flat_map simple_names t ++ flat_map simple_names e)%list
                     end) body.

(** The line of a statement. *)
Definition simple_line (s : simple_stmt) : nat :=
  match s with
  | SImport l _ _ | SFromImport l _ _ | SFromImportAs l _ _ _
  | SAssignFlag l _ _ | SAssign l _ | SClass l _ => l
  end.

(** [data.py] split at line 31: the fifteen import statements before it,
    the import from [flash.utils.imports], and the rest of the module. *)
Definition before_line_31 : list simple_stmt :=
  omap (fun s => match s with Simple s => Some s | SIf _ _ _ _ => None end)
       (take 15 data_py).

Definition line_31 : simple_stmt :=
  SFromImport 31 "flash.utils.imports" ["_KORNIA_AVAILABLE"; "_PYTORCHVIDEO_AVAILABLE"].

Definition after_line_31 : list stmt := drop 16 data_py.

(** Lines 14-30 of [data.py] execute without an exception. *)
Definition lines_before_31_succeed (env : environment) : bool :=
  match exec_body env (load_module env) (map Simple before_line_31) ∅ with
  | Loaded _ => true
  | Raised _ _ _ => false
  end.

(** [flash/utils/imports.py] itself can be imported. *)
Definition imports_py_loads (env : environment) : bool :=
  bool_decide (import_error env "flash.utils" = None)
  && match import_imports_py env with
     | Loaded _ => true
     | Raised _ _ _ => false
     end.

(** The import of [data.py] stops at line 31 with the [ImportError] for
    [_PYTORCHVIDEO_AVAILABLE]. *)
Definition fails_at_pytorchvideo_import (env : environment) : Prop :=
  ∃ ns, import_data_py env =
          Raised 31 (ImportError "_PYTORCHVIDEO_AVAILABLE" "flash.utils.imports") ns.

(** Where an exception of a module import comes from: it is the
    [ImportError] for a name the module does not have, or the exception
    that importing some module raises in this environment. *)
Definition import_exception (env : environment) (e : exception) : Prop :=
  (∃ name module, e = ImportError name module)
  ∨ (∃ module, import_error env module = Some e).

(** An environment in which an import that fails does so with
    [ImportError] or its subclass [ModuleNotFoundError]. *)
Definition only_import_errors (env : environment) : Prop :=
  ∀ module e, import_error env module = Some e -> is_ImportError e = true.

(** What holds of an outcome that started from [ns] and could bind
    [names]: nothing else is bound, and an exception is one of a module
    import, raised on a line satisfying [line_ok]. *)
Definition import_outcome (env : environment) (line_ok : nat -> Prop) (ns : namespace)
    (names : list string) (r : module_outcome) : Prop :=
  match r with
  | Loaded ns' => dom ns' ⊆ dom ns ∪ list_to_set names
  | Raised l e ns' =>
      line_ok l ∧ import_exception env e ∧ dom ns' ⊆ dom ns ∪ list_to_set names
  end.

(** A loader, the way a module resolves [from module import names], and
    what the lemmas below ask of it. *)
Definition loader : Type := nat -> string -> list string -> namespace -> module_outcome.

Definition loader_ok (env : environment) (load : loader) : Prop :=
  ∀ line module names ns,
    import_outcome env (eq line) ns names (load line module names ns).

(** An environment with every module and name present. *)
Definition full_env : environment :=
  {| import_error := fun _ => None;
     provides := fun _ _ => true;
     _module_available := fun _ => true |}.

(** The same environment without torchvision: importing it or one of its
    submodules raises [ModuleNotFoundError] for the package. *)
Definition no_torchvision_env : environment :=
  {| import_error := fun m =>
       if String.prefix "torchvision" m
       then Some (ModuleNotFoundError "torchvision") else None;
     provides := fun _ _ => true;
     _module_available := fun m => negb (String.eqb m "torchvision") |}.

(** The full environment on a machine where initialising torch fails with
    an [OSError], as it does when a shared library cannot be loaded. *)
Definition broken_torch_env : environment :=
  {| import_error := fun m =>
       if String.prefix "torch" m && negb (String.prefix "torchvision" m)
       then Some (ExternalError "OSError") else None;
     provides := fun _ _ => true;
     _module_available := fun _ => true |}.

End Imports.

(** ** [flash/video/classification/data.py]: the preprocess object *)

Module Video.

(** The splits, as the trainer's running stage. *)
Inductive RunningStage := TRAINING | VALIDATING | TESTING | PREDICTING.

#[global] Instance RunningStage_eq_dec : EqDecision RunningStage.
Proof. solve_decision. Defined.

(** The five staged transform hooks and, before them, [load_data]. *)
Inductive transform_hook :=
| pre_tensor_transform_
| to_tensor_transform_
| post_tensor_transform_
| per_batch_transform_
| per_batch_transform_on_device_.

Inductive hook :=
| load_data_
| transform_ (h : transform_hook).

#[global] Instance transform_hook_eq_dec : EqDecision transform_hook.
Proof. solve_decision. Defined.
#[global] Instance hook_eq_dec : EqDecision hook.
Proof. solve_decision. Defined.

(** Attributes of a Python object that the code assigns to. *)
Abbreviation attrs := (gmap string value).

Section Preprocess.
(** [_PYTORCHVIDEO_DATA]: a sample, and also a collated batch. *)
Context {Sample : Type}.
(** The samplers and the dataset of [pytorchvideo] and the argument
    [data : Any] of [load_data]. *)
Context {ClipSampler VideoSampler Data EncodedVideoDataset : Type}.

(** [Dict[str, Callable]] *)
Definition transforms := gmap string (Sample -> Sample).

(** *** The base class [Preprocess] *)

(** Modelled from the spec: the base class [Preprocess] of
    [flash/data/process.py], which is not among the embedded files.  The
    spec: a per-task object holding named transform callables keyed by
    split (train/val/test/predict), which exposes a [current_transform]
    selected by the active split.  The active split is the running stage
    the trainer has set, if any. *)
Record Preprocess := {
  train_transform : option transforms;
  val_transform : option transforms;
  test_transform : option transforms;
  predict_transform : option transforms;
  running_stage : option RunningStage;
}.

(** Modelled from the spec: [Preprocess.__init__] keeps the four
    dictionaries keyed by split, in the order train, val, test, predict;
    no split is active yet. *)
Definition Preprocess__init__
    (train val test predict : option transforms) : Preprocess :=
  {| train_transform := train; val_transform := val;
     test_transform := test; predict_transform := predict;
     running_stage := None |}.

(** The transform set a [Preprocess] holds for a split. *)
Definition transform_of (p : Preprocess) (s : RunningStage) : option transforms :=
  match s with
  | TRAINING => train_transform p
  | VALIDATING => val_transform p
  | TESTING => test_transform p
  | PREDICTING => predict_transform p
  end.

(** How the base class turns the selected dictionary (or none) into the
    callable it hands out; the spec leaves this open. *)
Variable as_callable : option transforms -> Sample -> Sample.

(** Modelled from the spec: [Preprocess.current_transform], the
    transform callable selected by the active split. *)
Definition current_transform (p : Preprocess) : Sample -> Sample :=
  as_callable (running_stage p ≫= transform_of p).

(** Modelled from the spec: [Preprocess.training], whether the active
    split is the training one. *)
Definition training (p : Preprocess) : bool :=
  bool_decide (running_stage p = Some TRAINING).

Definition set_running_stage (s : option RunningStage) (p : Preprocess) : Preprocess :=
  {| train_transform := train_transform p; val_transform := val_transform p;
     test_transform := test_transform p; predict_transform := predict_transform p;
     running_stage := s |}.

(** *** [VideoClassificationPreprocess] (lines 46-91) *)

Record VideoClassificationPreprocess := {
  base : Preprocess;
  clip_sampler : ClipSampler;
  video_sampler : VideoSampler;
  decode_audio : bool;
  decoder : string;
}.

(** [VideoClassificationPreprocess.__init__], lines 48-64. *)
Definition __init__ (clip_sampler : ClipSampler) (video_sampler : VideoSampler)
    (decode_audio : bool) (decoder : string)
    (train_transform val_transform test_transform predict_transform : option transforms)
  : VideoClassificationPreprocess :=
  {| base := Preprocess__init__ train_transform val_transform test_transform
               predict_transform;
     clip_sampler := clip_sampler;
     video_sampler := video_sampler;
     decode_audio := decode_audio;
     decoder := decoder |}.

Definition with_stage (s : option RunningStage) (self : VideoClassificationPreprocess)
  : VideoClassificationPreprocess :=
  {| base := set_running_stage s (base self);
     clip_sampler := clip_sampler self; video_sampler := video_sampler self;
     decode_audio := decode_audio self; decoder := decoder self |}.

(** [pytorchvideo]'s [labeled_encoded_video_dataset] and the
    [_labeled_videos] of the dataset it builds: pairs of a path and an
    information dictionary. *)
Variable labeled_encoded_video_dataset :
  Data -> ClipSampler -> VideoSampler -> bool -> string -> result EncodedVideoDataset.
Variable _labeled_videos : EncodedVideoDataset -> list (string * gmap string Z).

(** [[s[1]['label'] for s in ds._labeled_videos]]: the first video without
    a label raises [KeyError]. *)
Fixpoint labels_of (videos : list (string * gmap string Z)) : result (list Z) :=
  match videos with
  | [] => Ok []
  | s :: rest =>
      match s.2 !! "label" with
      | None => Err (KeyError "label")
      | Some l =>
          match labels_of rest with
          | Ok ls => Ok (l :: ls)
          | Err e => Err e
          end
      end
  end.

(** [len(np.unique(labels))] *)
Definition len_unique (labels : list Z) : Z :=
  Z.of_nat (length (remove_dups labels)).

(** [load_data], lines 66-76.  The [dataset] argument is mutated in
    place; the function returns it next to its result. *)
Definition load_data (self : VideoClassificationPreprocess) (data : Data)
    (dataset : attrs) : result EncodedVideoDataset * attrs :=
  match labeled_encoded_video_dataset data (clip_sampler self) (video_sampler self)
          (decode_audio self) (decoder self) with
  | Err e => (Err e, dataset)
  | Ok ds =>
      if training (base self) then
        match labels_of (_labeled_videos ds) with
        | Err e => (Err e, dataset)
        | Ok labels => (Ok ds, <["num_classes" := VInt (len_unique labels)]> dataset)
        end
      else (Ok ds, dataset)
  end.

(** The five hooks, lines 78-91. *)
Definition pre_tensor_transform (self : VideoClassificationPreprocess)
    (sample : Sample) : Sample :=
  current_transform (base self) sample.

Definition to_tensor_transform (self : VideoClassificationPreprocess)
    (sample : Sample) : Sample :=
  current_transform (base self) sample.

Definition post_tensor_transform (self : VideoClassificationPreprocess)
    (sample : Sample) : Sample :=
  current_transform (base self) sample.

Definition per_batch_transform (self : VideoClassificationPreprocess)
    (sample : Sample) : Sample :=
  current_transform (base self) sample.

Definition per_batch_transform_on_device (self : VideoClassificationPreprocess)
    (sample : Sample) : Sample :=
  current_transform (base self) sample.

(** Method dispatch by hook name. *)
Definition call_hook (self : VideoClassificationPreprocess) (h : transform_hook)
  : Sample -> Sample :=
  match h with
  | pre_tensor_transform_ => pre_tensor_transform self
  | to_tensor_transform_ => to_tensor_transform self
  | post_tensor_transform_ => post_tensor_transform self
  | per_batch_transform_ => per_batch_transform self
  | per_batch_transform_on_device_ => per_batch_transform_on_device self
  end.
End Preprocess.

(** *** The staged pipeline *)

(** Modelled from the spec: one invocation of a staged hook, as the absent
    driver makes it: the hook, the indices (within the split) of the
    samples it handles and, for a transform hook, the value it was called
    with and the value it returned. *)
Abbreviation event S := (hook * list nat * option (S * S))%type.

Definition ev_hook {S : Type} (e : event S) : hook := e.1.1.

Definition touches {S : Type} (i : nat) (e : event S) : Prop := i ∈ e.1.2.

#[global] Instance touches_dec {S : Type} i (e : event S) : Decision (touches i e).
Proof. unfold touches. apply _. Defined.

(** Modelled from the spec: the order of the staged transform contract,
    load, pre-tensor, to-tensor, post-tensor, per-batch,
    per-batch-on-device.  The first three transforms take one sample, the
    last two a collated batch. *)
Definition sample_hooks : list transform_hook :=
  [pre_tensor_transform_; to_tensor_transform_; post_tensor_transform_].

Definition batch_hooks : list transform_hook :=
  [per_batch_transform_; per_batch_transform_on_device_].

Definition hook_order : list hook :=
  load_data_ :: map transform_ (sample_hooks ++ batch_hooks).

(** Position of a hook in the contract. *)
Definition hook_rank (h : hook) : nat :=
  match h with
  | load_data_ => 0
  | transform_ pre_tensor_transform_ => 1
  | transform_ to_tensor_transform_ => 2
  | transform_ post_tensor_transform_ => 3
  | transform_ per_batch_transform_ => 4
  | transform_ per_batch_transform_on_device_ => 5
  end.

(** Modelled from the spec: the dataloader's batching, consecutive groups
    of [k] elements, the last one possibly shorter; [acc] holds the group
    being filled, newest first. *)
Fixpoint batches {A : Type} (k : nat) (acc l : list A) : list (list A) :=
  match l with
  | [] => match acc with [] => [] | _ => [rev acc] end
  | x :: l' =>
      if decide (k ≤ S (length acc))%nat
      then rev (x :: acc) :: batches k [] l'
      else batches k (x :: acc) l'
  end.

(** A list with the position of each element. *)
Definition enumerate {A : Type} (l : list A) : list (nat * A) :=
  zip (seq 0 (length l)) l.

Section Pipeline.
Context {Sample ClipSampler VideoSampler Data EncodedVideoDataset : Type}.
Variable as_callable : option (@transforms Sample) -> Sample -> Sample.
Variable labeled_encoded_video_dataset :
  Data -> ClipSampler -> VideoSampler -> bool -> string -> result EncodedVideoDataset.
Variable _labeled_videos : EncodedVideoDataset -> list (string * gmap string Z).
(** Iterating the external dataset and [default_collate]. *)
Variable clips : EncodedVideoDataset -> list Sample.
Variable collate : list Sample -> Sample.

Abbreviation preprocess :=
  (@VideoClassificationPreprocess Sample ClipSampler VideoSampler).

(** Modelled from the spec: the absent driver calling the hooks [hs] of
    the preprocess one after the other, each on what the one before
    returned, starting from [x]; each call is logged with its argument and
    its result against the sample indices [ids]. *)
Fixpoint run_hooks (self : preprocess) (hs : list transform_hook)
    (ids : list nat) (x : Sample) : list (event Sample) * Sample :=
  match hs with
  | [] => ([], x)
  | h :: hs' =>
      let y := call_hook as_callable self h x in
      let '(tr, z) := run_hooks self hs' ids y in
      ((transform_ h, ids, Some (x, y)) :: tr, z)
  end.

(** Modelled from the spec: one batch.  Each sample of the batch goes
    through the per-sample hooks when it is fetched; the results are
    collated and the batch goes through the per-batch hooks. *)
Definition run_batch (self : preprocess) (b : list (nat * Sample))
  : list (event Sample) * Sample :=
  let per := map (fun '(i, s) => run_hooks self sample_hooks [i] s) b in
  let '(tr, out) := run_hooks self batch_hooks (map fst b) (collate (map snd per)) in
  (flat_map fst per ++ tr, out)%list.

(** Modelled from the spec: the driver of one split, which the absent
    [flash/data] modules ([data_pipeline], [auto_dataset],
    [data_module]) implement.  It activates the split, calls [load_data]
    once, walks the loaded dataset in batches of [batch_size], and
    returns the hook invocations in the order they happened with the
    processed batches. *)
Definition run_split (self : preprocess) (stage : RunningStage) (data : Data)
    (dataset : attrs) (batch_size : nat)
  : result (list (event Sample) * list Sample) * attrs :=
  let self := with_stage (Some stage) self in
  match load_data labeled_encoded_video_dataset _labeled_videos self data dataset with
  | (Err e, dataset') => (Err e, dataset')
  | (Ok ds, dataset') =>
      let samples := enumerate (clips ds) in
      let rs := map (run_batch self) (batches batch_size [] samples) in
      (Ok ((load_data_, map fst samples, None) :: flat_map fst rs, map snd rs), dataset')
  end.

(** What the hooks of [VideoClassificationPreprocess] (lines 78-91) make
    of one sample, and the three calls that do it. *)
Definition per_sample (self : preprocess) (s : Sample) : Sample :=
  post_tensor_transform as_callable self
    (to_tensor_transform as_callable self
       (pre_tensor_transform as_callable self s)).

Definition sample_calls (self : preprocess) (i : nat) (s : Sample)
  : list (event Sample) :=
  let x1 := pre_tensor_transform as_callable self s in
  let x2 := to_tensor_transform as_callable self x1 in
  let x3 := post_tensor_transform as_callable self x2 in
  [ (transform_ pre_tensor_transform_, [i], Some (s, x1));
    (transform_ to_tensor_transform_, [i], Some (x1, x2));
    (transform_ post_tensor_transform_, [i], Some (x2, x3)) ].

(** What they make of one batch of indexed samples, and the two calls on
    the collated batch. *)
Definition batch_result (self : preprocess) (b : list (nat * Sample)) : Sample :=
  per_batch_transform_on_device as_callable self
    (per_batch_transform as_callable self
       (collate (map (fun js => per_sample self js.2) b))).

Definition batch_calls (self : preprocess) (b : list (nat * Sample))
  : list (event Sample) :=
  let c := collate (map (fun js => per_sample self js.2) b) in
  let y := per_batch_transform as_callable self c in
  let z := per_batch_transform_on_device as_callable self y in
  [ (transform_ per_batch_transform_, map fst b, Some (c, y));
    (transform_ per_batch_transform_on_device_, map fst b, Some (y, z)) ].
End Pipeline.

End Video.
(** ** [flash/video/classification/data.py]: the data module *)

(** What a function did: it returned, it raised an exception itself, or an
    exception escaped from a function it called.  The last two are kept
    apart, since what a callee raises is not decided by the caller's code. *)
Inductive outcome (A : Type) :=
| Return (a : A)
| Raise (e : exception)
| Propagate (callee : string) (e : exception).
Arguments Return {A} a.
Arguments Raise {A} e.
Arguments Propagate {A} callee e.

(** The exception a call ends with, raised by the function itself or
    passed on from a callee, if it ends with one. *)
Definition exception_of {A : Type} (o : outcome A) : option exception :=
  match o with
  | Return _ => None
  | Raise e => Some e
  | Propagate _ e => Some e
  end.

(** Computations that log the calls they make, oldest first. *)
Definition logged (C A : Type) : Type := list C * outcome A.

Definition ret {C A : Type} (a : A) : logged C A := ([], Return a).

Definition raise {C A : Type} (e : exception) : logged C A := ([], Raise e).

Definition bind {C A B : Type} (m : logged C A) (f : A -> logged C B) : logged C B :=
  match m with
  | (log, Return a) => let '(log', o) := f a in ((log ++ log')%list, o)
  | (log, Raise e) => (log, Raise e)
  | (log, Propagate callee e) => (log, Propagate callee e)
  end.

(** A call to [callee], logged as [c], with the result [r] it gave. *)
Definition call {C A : Type} (callee : string) (c : C) (r : result A) : logged C A :=
  ([c], match r with Ok a => Return a | Err e => Propagate callee e end).

Notation "'do' x <- m ;; k" := (bind m (fun x => k))
  (at level 10, x name, m at level 10, k at level 200).

(** The base class [DataModule] of [flash/data/data_module.py], as far as
    [from_paths] uses it: the keyword arguments of
    [from_load_data_inputs]. *)
Module DataModuleBase.
Section Inputs.
Context {Preprocess : Type}.
Record load_data_inputs := {
  train_load_data_input : option string;
  val_load_data_input : option string;
  test_load_data_input : option string;
  predict_load_data_input : option string;
  batch_size : Z;
  num_workers : option Z;
  preprocess : Preprocess;
  use_iterable_auto_dataset : bool;
  kwargs : gmap string value;
}.
End Inputs.
Arguments load_data_inputs : clear implicits.

(** The keywords the call on lines 206-216 spells out. *)
Definition explicit_keywords : list string :=
  ["train_load_data_input"; "val_load_data_input"; "test_load_data_input";
   "predict_load_data_input"; "batch_size"; "num_workers"; "preprocess";
   "use_iterable_auto_dataset"].
End DataModuleBase.

Module VideoClassificationData.
Section Model.
Context {Sample ClipSampler VideoSampler float : Type}.
(** Preprocess objects and data modules, whatever class built them. *)
Context {Preprocess DataModule : Type}.

Abbreviation transforms := (@Video.transforms Sample).

(** [Union[str, 'ClipSampler']], or [None]. *)
Inductive clip_sampler_arg :=
| ClipSamplerNone
| ClipSamplerName (name : string)
| ClipSamplerObject (sampler : ClipSampler).

(** Python truth value: [None] and the empty string are false; a
    [ClipSampler] object defines neither [__bool__] nor [__len__]. *)
Definition clip_sampler_truthy (c : clip_sampler_arg) : bool :=
  match c with
  | ClipSamplerNone => false
  | ClipSamplerName name => negb (String.eqb name "")
  | ClipSamplerObject _ => true
  end.

(** The eight positional arguments a preprocess class is called with. *)
Record preprocess_init := {
  init_clip_sampler : ClipSampler;
  init_video_sampler : VideoSampler;
  init_decode_audio : bool;
  init_decoder : string;
  init_train_transform : option transforms;
  init_val_transform : option transforms;
  init_test_transform : option transforms;
  init_predict_transform : option transforms;
}.

(** A class, as the function calling it is. *)
Definition preprocess_class : Type := preprocess_init -> result Preprocess.

(** The class [from_paths] is called on: [VideoClassificationData] or a
    subclass.  [from_load_data_inputs] is inherited from the absent base
    class. *)
Record data_module_class := {
  preprocess_cls : preprocess_class;
  from_load_data_inputs : DataModuleBase.load_data_inputs Preprocess -> result DataModule;
}.

(** The calls [from_paths] makes to code outside this file. *)
Inductive external_call :=
| make_clip_sampler_call (sampler : clip_sampler_arg) (clip_duration : float)
    (clip_sampler_kwargs : gmap string value)
| preprocess_cls_call (args : preprocess_init)
| from_load_data_inputs_call (args : DataModuleBase.load_data_inputs Preprocess).

(** The flag [data.py] tries to import, and [pytorchvideo]'s
    [make_clip_sampler]. *)
Variable _PYTORCHVIDEO_AVAILABLE : bool.
Variable make_clip_sampler :
  clip_sampler_arg -> float -> gmap string value -> result ClipSampler.

(** [instantiate_preprocess], lines 99-119.  A class object is true, so
    [preprocess_cls or cls.preprocess_cls] is the argument unless it is
    [None]. *)
Definition instantiate_preprocess (cls : data_module_class)
    (clip_sampler : ClipSampler) (video_sampler : VideoSampler)
    (decode_audio : bool) (decoder : string)
    (train_transform val_transform test_transform predict_transform : option transforms)
    (preprocess_cls_arg : option preprocess_class)
  : logged external_call Preprocess :=
  let preprocess_cls := default (preprocess_cls cls) preprocess_cls_arg in
  let args :=
    {| init_clip_sampler := clip_sampler; init_video_sampler := video_sampler;
       init_decode_audio := decode_audio; init_decoder := decoder;
       init_train_transform := train_transform; init_val_transform := val_transform;
       init_test_transform := test_transform;
       init_predict_transform := predict_transform |} in
  do preprocess <- call "preprocess_cls" (preprocess_cls_call args) (preprocess_cls args) ;;
  ret preprocess.

(** The parameters of [from_paths], lines 122-142. *)
Record arguments := {
  train_folder : option string;
  val_folder : option string;
  test_folder : option string;
  predict_folder : option string;
  clip_sampler : clip_sampler_arg;
  clip_duration : float;
  clip_sampler_kwargs : option (gmap string value);
  video_sampler : VideoSampler;
  decode_audio : bool;
  decoder : string;
  train_transform : option transforms;
  val_transform : option transforms;
  test_transform : option transforms;
  predict_transform : option transforms;
  batch_size : Z;
  num_workers : option Z;
  preprocess_cls_arg : option preprocess_class;
  kwargs : gmap string value;
}.

(** [not clip_sampler_kwargs]: [None] and the empty dictionary. *)
Definition kwargs_falsy (k : option (gmap string value)) : bool :=
  match k with
  | None => true
  | Some m => bool_decide (m = ∅)
  end.

(** A keyword given both explicitly and through [**kwargs] is a
    [TypeError] at the call, before the callee runs. *)
Definition repeated_keyword (explicit : list string) (kwargs : gmap string value)
  : option string :=
  List.find (fun k => bool_decide (is_Some (kwargs !! k))) explicit.

(** [from_paths], lines 181-216. *)
Definition from_paths (cls : data_module_class) (a : arguments)
  : logged external_call DataModule :=
  if negb _PYTORCHVIDEO_AVAILABLE then
    raise (ModuleNotFoundError "Please, run `pip install pytorchvideo`.")
  else
    let clip_sampler_kwargs :=
      if kwargs_falsy (clip_sampler_kwargs a) then ∅
      else default ∅ (clip_sampler_kwargs a) in
    if negb (clip_sampler_truthy (clip_sampler a)) then
      raise (MisconfigurationException
        "clip_sampler should be provided as a string or ``pytorchvideo.data.clip_sampling.ClipSampler``")
    else
      do clip_sampler <-
        call "make_clip_sampler"
          (make_clip_sampler_call (clip_sampler a) (clip_duration a) clip_sampler_kwargs)
          (make_clip_sampler (clip_sampler a) (clip_duration a) clip_sampler_kwargs) ;;
      do preprocess <-
        instantiate_preprocess cls clip_sampler (video_sampler a) (decode_audio a)
          (decoder a) (train_transform a) (val_transform a) (test_transform a)
          (predict_transform a) (preprocess_cls_arg a) ;;
      let inputs :=
        {| DataModuleBase.train_load_data_input := train_folder a;
           DataModuleBase.val_load_data_input := val_folder a;
           DataModuleBase.test_load_data_input := test_folder a;
           DataModuleBase.predict_load_data_input := predict_folder a;
           DataModuleBase.batch_size := batch_size a;
           DataModuleBase.num_workers := num_workers a;
           DataModuleBase.preprocess := preprocess;
           DataModuleBase.use_iterable_auto_dataset := true;
           DataModuleBase.kwargs := kwargs a |} in
      match repeated_keyword DataModuleBase.explicit_keywords (kwargs a) with
      | Some k => raise (TypeError k)
      | None =>
          call "from_load_data_inputs" (from_load_data_inputs_call inputs)
            (from_load_data_inputs cls inputs)
      end.
(** The keyword dictionary handed to [make_clip_sampler]. *)
Definition sampler_kwargs (a : arguments) : gmap string value :=
  default ∅ (clip_sampler_kwargs a).

(** The arguments the preprocess class is called with. *)
Definition init_args (a : arguments) (sampler : ClipSampler) : preprocess_init :=
  {| init_clip_sampler := sampler; init_video_sampler := video_sampler a;
     init_decode_audio := decode_audio a; init_decoder := decoder a;
     init_train_transform := train_transform a;
     init_val_transform := val_transform a;
     init_test_transform := test_transform a;
     init_predict_transform := predict_transform a |}.

(** The keyword arguments of the call on lines 206-216. *)
Definition inputs_of (a : arguments) (p : Preprocess) : DataModuleBase.load_data_inputs Preprocess :=
  {| DataModuleBase.train_load_data_input := train_folder a;
     DataModuleBase.val_load_data_input := val_folder a;
     DataModuleBase.test_load_data_input := test_folder a;
     DataModuleBase.predict_load_data_input := predict_folder a;
     DataModuleBase.batch_size := batch_size a;
     DataModuleBase.num_workers := num_workers a;
     DataModuleBase.preprocess := p;
     DataModuleBase.use_iterable_auto_dataset := true;
     DataModuleBase.kwargs := kwargs a |}.

(** The same call with another [clip_sampler_kwargs]. *)
Definition with_clip_sampler_kwargs (k : option (gmap string value)) (a : arguments) : arguments :=
  {| train_folder := train_folder a; val_folder := val_folder a;
     test_folder := test_folder a; predict_folder := predict_folder a;
     clip_sampler := clip_sampler a; clip_duration := clip_duration a;
     clip_sampler_kwargs := k; video_sampler := video_sampler a;
     decode_audio := decode_audio a; decoder := decoder a;
     train_transform := train_transform a; val_transform := val_transform a;
     test_transform := test_transform a; predict_transform := predict_transform a;
     batch_size := batch_size a; num_workers := num_workers a;
     preprocess_cls_arg := preprocess_cls_arg a; kwargs := kwargs a |}.

(** The same call with another [preprocess_cls]. *)
Definition with_preprocess_cls (c : option preprocess_class) (a : arguments) : arguments :=
  {| train_folder := train_folder a; val_folder := val_folder a;
     test_folder := test_folder a; predict_folder := predict_folder a;
     clip_sampler := clip_sampler a; clip_duration := clip_duration a;
     clip_sampler_kwargs := clip_sampler_kwargs a; video_sampler := video_sampler a;
     decode_audio := decode_audio a; decoder := decoder a;
     train_transform := train_transform a; val_transform := val_transform a;
     test_transform := test_transform a; predict_transform := predict_transform a;
     batch_size := batch_size a; num_workers := num_workers a;
     preprocess_cls_arg := c; kwargs := kwargs a |}.

(** The same call with other [**kwargs]. *)
Definition with_kwargs (k : gmap string value) (a : arguments) : arguments :=
  {| train_folder := train_folder a; val_folder := val_folder a;
     test_folder := test_folder a; predict_folder := predict_folder a;
     clip_sampler := clip_sampler a; clip_duration := clip_duration a;
     clip_sampler_kwargs := clip_sampler_kwargs a; video_sampler := video_sampler a;
     decode_audio := decode_audio a; decoder := decoder a;
     train_transform := train_transform a; val_transform := val_transform a;
     test_transform := test_transform a; predict_transform := predict_transform a;
     batch_size := batch_size a; num_workers := num_workers a;
     preprocess_cls_arg := preprocess_cls_arg a; kwargs := k |}.

End Model.

(** [preprocess_cls = VideoClassificationPreprocess], line 97: the class
    called with the eight positional arguments runs its [__init__]. *)
Definition VideoClassificationPreprocess_class {Sample ClipSampler VideoSampler : Type}
  : @preprocess_class Sample ClipSampler VideoSampler
      (@Video.VideoClassificationPreprocess Sample ClipSampler VideoSampler) :=
  fun i =>
    Ok (Video.__init__ (init_clip_sampler i) (init_video_sampler i)
          (init_decode_audio i) (init_decoder i)
          (init_train_transform i) (init_val_transform i)
          (init_test_transform i) (init_predict_transform i)).

(** [VideoClassificationData] itself, lines 94-97, with the
    [from_load_data_inputs] it inherits. *)
Definition VideoClassificationData_class {Sample ClipSampler VideoSampler DataModule : Type}
    (inherited :
       DataModuleBase.load_data_inputs
         (@Video.VideoClassificationPreprocess Sample ClipSampler VideoSampler)
       -> result DataModule)
  : @data_module_class Sample ClipSampler VideoSampler
      (@Video.VideoClassificationPreprocess Sample ClipSampler VideoSampler) DataModule :=
  {| preprocess_cls := VideoClassificationPreprocess_class;
     from_load_data_inputs := inherited |}.
End VideoClassificationData.

(** ** [flash/vision/segmentation/model.py] *)

Module SemanticSegmentation.
Section Model.
(** Tensors, [nn.Module] objects, floats and optimizer classes of the
    tensor library, and the metrics, losses and serializers a caller may
    pass. *)
Context {Tensor Module_ float Optimizer UserMetrics UserLoss UserSerializer : Type}.

Variable call_module : Module_ -> Tensor -> result Tensor.
Variable module_truthy : Module_ -> bool.
(** [nn.Conv2d(in_channels, out_channels, kernel_size=...)] *)
Variable Conv2d : Z -> Z -> Z -> Module_.

(** [Accuracy(subset_accuracy=...)] of [torchmetrics], or what the caller
    passed. *)
Inductive metrics_value :=
| Accuracy (subset_accuracy : bool)
| given_metrics (m : UserMetrics).

Inductive loss_value :=
| F_cross_entropy
| given_loss (l : UserLoss).

(** [Optional[Union[Serializer, Mapping[str, Serializer]]]] *)
Inductive serializer_arg :=
| a_serializer (s : UserSerializer)
| serializer_mapping (m : gmap string UserSerializer).

Inductive serializer_value :=
| Classes (multi_label : bool)
| given_serializer (s : serializer_arg).

(** Truth value of the [serializer] argument: [None] and an empty mapping
    are false. *)
Definition serializer_truthy (s : option serializer_arg) : bool :=
  match s with
  | None => false
  | Some (a_serializer _) => true
  | Some (serializer_mapping m) => negb (bool_decide (m = ∅))
  end.

(** [Union[str, Tuple[nn.Module, int]]] *)
Inductive backbone_arg :=
| backbone_name (name : string)
| backbone_pair (module : Module_) (num_features : Z).

(** [Optional[Union[FunctionType, nn.Module]]] *)
Inductive head_arg :=
| head_function (f : Z -> Z -> Module_)
| head_module (m : Module_).

(** A registered backbone constructor: called with [pretrained] and the
    backbone keyword arguments, it gives the module and its number of
    features. *)
Definition backbone_constructor : Type :=
  bool -> gmap string value -> Module_ * Z.

(** [FlashRegistry]: names to constructors. *)
Definition FlashRegistry : Type := gmap string backbone_constructor.

(** Modelled from the spec: the state [ClassificationTask.__init__] (in
    the absent [flash/core/classification.py]) keeps from its keyword
    arguments; a task wires together the loss function, optimizer,
    metrics and serializer it is given. *)
Record ClassificationTask := {
  model : option Module_;
  loss_fn : loss_value;
  optimizer : Optimizer;
  metrics : metrics_value;
  learning_rate : float;
  serializer : serializer_value;
}.

Record SemanticSegmentation := {
  task : ClassificationTask;
  backbone : option Module_;
  head : Module_;
}.

(** The parameters of [__init__], lines 35-48. *)
Record arguments := {
  num_classes : Z;
  backbone_ : backbone_arg;
  backbone_kwargs : option (gmap string value);
  head_ : option head_arg;
  pretrained : bool;
  loss_fn_ : option UserLoss;
  optimizer_ : Optimizer;
  metrics_ : option UserMetrics;
  learning_rate_ : float;
  multi_label : bool;
  serializer_ : option serializer_arg;
}.

(** [SemanticSegmentation.__init__], lines 50-79.  The registry lookup of
    lines 73-76 sits inside a string literal and is not executed. *)
Definition __init__ (a : arguments) : SemanticSegmentation :=
  let metrics :=
    match metrics_ a with
    | None => Accuracy (multi_label a)
    | Some m => given_metrics m
    end in
  let loss_fn :=
    match loss_fn_ a with
    | None => F_cross_entropy
    | Some l => given_loss l
    end in
  let super :=
    {| model := None;
       loss_fn := loss_fn;
       optimizer := optimizer_ a;
       metrics := metrics;
       learning_rate := learning_rate_ a;
       serializer :=
         match serializer_ a with
         | Some s =>
             if serializer_truthy (Some s) then given_serializer s
             else Classes (multi_label a)
         | None => Classes (multi_label a)
         end |} in
  let backbone_kwargs : gmap string value :=
    match backbone_kwargs a with
    | Some k => if bool_decide (k = ∅) then ∅ else k
    | None => ∅
    end in
  let '(backbone, num_features) := (@None Module_, 1%Z) in
  let head : option Module_ :=
    match head_ a with
    | Some (head_function f) => Some (f num_features (num_classes a))
    | Some (head_module m) => Some m
    | None => None
    end in
  {| task := super;
     backbone := backbone;
     head :=
       match head with
       | Some m => if module_truthy m then m else Conv2d num_features (num_classes a) 1
       | None => Conv2d num_features (num_classes a) 1
       end |}.

(** [forward], lines 81-83.  Calling [None] is a [TypeError]. *)
Definition forward (self : SemanticSegmentation) (x : Tensor) : result Tensor :=
  match backbone self with
  | None => Err (TypeError "'NoneType' object is not callable")
  | Some b =>
      match call_module b x with
      | Ok x => call_module (head self) x
      | Err e => Err e
      end
  end.

(** What the signature, the class attribute [backbones] and the disabled
    lines 73-76 describe for a backbone given by name: the module the
    registered constructor builds. *)
Definition registered_backbone (backbones : FlashRegistry) (a : arguments)
  : option Module_ :=
  match backbone_ a with
  | backbone_pair m _ => Some m
  | backbone_name name =>
      match backbones !! name with
      | Some constructor =>
          Some (constructor (pretrained a) (default ∅ (backbone_kwargs a))).1
      | None => None
      end
  end.

(** [head(backbone(x))] for given modules. *)
Definition head_of_backbone (b h : Module_) (x : Tensor) : result Tensor :=
  match call_module b x with
  | Ok y => call_module h y
  | Err e => Err e
  end.
End Model.
End SemanticSegmentation.

(** ** Concrete instances *)

(** Small instances of the external parts, for evaluating the model: a
    training folder with three videos of two classes; samplers, modules
    and data modules stand for themselves. *)
Module Examples.
Import Video.

Definition videos : list (string * gmap string Z) :=
  [ ("train/archery/1.mp4", {[ "label" := 0%Z ]});
    ("train/archery/2.mp4", {[ "label" := 0%Z ]});
    ("train/bowling/1.mp4", {[ "label" := 1%Z ]}) ].

Definition labeled_encoded_video_dataset (data : string) (clip_sampler video_sampler : string)
    (decode_audio : bool) (decoder : string) : result (list (string * gmap string Z)) :=
  if String.eqb data "train/" then Ok videos
  else Err (ExternalError "no videos found").

Definition _labeled_videos (ds : list (string * gmap string Z)) := ds.

(** A clip is its path's length here; collating adds up. *)
Definition clips (ds : list (string * gmap string Z)) : list nat :=
  map (fun v => String.length v.1) ds.

Definition collate (batch : list nat) : nat := foldr Nat.add 0 batch.

Definition as_callable (t : option (@transforms nat)) (x : nat) : nat :=
  match t ≫= (fun d => d !! "transform") with
  | Some f => f x
  | None => x
  end.

Definition preprocess : @VideoClassificationPreprocess nat string string :=
  __init__ "random" "RandomSampler" true "pyav" None None None None.

(** A float written as mantissa and decimal exponent. *)
Definition decimal : Type := Z * Z.

Definition make_clip_sampler (c : @VideoClassificationData.clip_sampler_arg string)
    (clip_duration : decimal) (kwargs : gmap string value) : result string :=
  match c with
  | VideoClassificationData.ClipSamplerName name => Ok name
  | VideoClassificationData.ClipSamplerObject sampler => Ok sampler
  | VideoClassificationData.ClipSamplerNone => Err (TypeError "sampling_type")
  end.

(** [VideoClassificationData] itself: its [preprocess_cls] is
    [VideoClassificationPreprocess], and the data module is represented by
    the inputs it was built from. *)
Definition VideoClassificationData_class :
    @VideoClassificationData.data_module_class nat string string
      (@VideoClassificationPreprocess nat string string)
      (DataModuleBase.load_data_inputs (@VideoClassificationPreprocess nat string string)) :=
  {| VideoClassificationData.preprocess_cls := fun i =>
       Ok (__init__ (VideoClassificationData.init_clip_sampler i)
             (VideoClassificationData.init_video_sampler i)
             (VideoClassificationData.init_decode_audio i)
             (VideoClassificationData.init_decoder i)
             (VideoClassificationData.init_train_transform i)
             (VideoClassificationData.init_val_transform i)
             (VideoClassificationData.init_test_transform i)
             (VideoClassificationData.init_predict_transform i));
     VideoClassificationData.from_load_data_inputs := fun inputs => Ok inputs |}.

(** [from_paths("train/")] with the defaults of the signature, and the
    same call with [clip_sampler=None]. *)
Definition from_paths_arguments (sampler : @VideoClassificationData.clip_sampler_arg string)
  : @VideoClassificationData.arguments nat string string decimal
      (@VideoClassificationPreprocess nat string string) :=
  {| VideoClassificationData.train_folder := Some "train/";
     VideoClassificationData.val_folder := None;
     VideoClassificationData.test_folder := None;
     VideoClassificationData.predict_folder := None;
     VideoClassificationData.clip_sampler := sampler;
     VideoClassificationData.clip_duration := (2%Z, 0%Z);
     VideoClassificationData.clip_sampler_kwargs := None;
     VideoClassificationData.video_sampler := "RandomSampler";
     VideoClassificationData.decode_audio := true;
     VideoClassificationData.decoder := "pyav";
     VideoClassificationData.train_transform := None;
     VideoClassificationData.val_transform := None;
     VideoClassificationData.test_transform := None;
     VideoClassificationData.predict_transform := None;
     VideoClassificationData.batch_size := 4%Z;
     VideoClassificationData.num_workers := None;
     VideoClassificationData.preprocess_cls_arg := None;
     VideoClassificationData.kwargs := ∅ |}.

(** A registry with resnet18 registered, modules standing for themselves,
    and [SemanticSegmentation(num_classes=2)] with the defaults of the
    signature. *)
Definition backbones : @SemanticSegmentation.FlashRegistry string :=
  {[ "resnet18" := fun (pretrained : bool) (kwargs : gmap string value) =>
                     ("resnet18", 512%Z) ]}.

Definition call_module (m : string) (x : list string) : result (list string) :=
  Ok (m :: x).

Definition module_truthy (m : string) : bool := true.

Definition Conv2d (in_channels out_channels kernel_size : Z) : string := "Conv2d".

Definition segmentation_arguments :
    @SemanticSegmentation.arguments string decimal string unit unit unit :=
  {| SemanticSegmentation.num_classes := 2%Z;
     SemanticSegmentation.backbone_ := SemanticSegmentation.backbone_name "resnet18";
     SemanticSegmentation.backbone_kwargs := None;
     SemanticSegmentation.head_ := None;
     SemanticSegmentation.pretrained := true;
     SemanticSegmentation.loss_fn_ := None;
     SemanticSegmentation.optimizer_ := "torch.optim.SGD";
     SemanticSegmentation.metrics_ := None;
     SemanticSegmentation.learning_rate_ := (1%Z, (-3)%Z);
     SemanticSegmentation.multi_label := false;
     SemanticSegmentation.serializer_ := None |}.

(** A preprocess class whose [__init__] rejects its configuration. *)
Definition raising_preprocess_class
  : @VideoClassificationData.preprocess_class nat string string
      (@VideoClassificationPreprocess nat string string) :=
  fun _ => Err (MisconfigurationException "transforms are misconfigured").

(** A [make_clip_sampler] that knows the sampler "random" only. *)
Definition strict_make_clip_sampler (c : @VideoClassificationData.clip_sampler_arg string)
    (clip_duration : decimal) (kwargs : gmap string value) : result string :=
  match c with
  | VideoClassificationData.ClipSamplerName "random" => Ok "random"
  | VideoClassificationData.ClipSamplerObject sampler => Ok sampler
  | _ => Err (ExternalError "unsupported sampling type")
  end.

(** A folder whose single video carries no label, and a second folder
    with the training videos in another order, one of them twice. *)
Definition unlabeled_video_dataset (data : string) (clip_sampler video_sampler : string)
    (decode_audio : bool) (decoder : string) : result (list (string * gmap string Z)) :=
  Ok [ ("predict/1.mp4", ∅) ].

Definition two_folder_dataset (data : string) (clip_sampler video_sampler : string)
    (decode_audio : bool) (decoder : string) : result (list (string * gmap string Z)) :=
  if String.eqb data "train/" then Ok videos
  else
    Ok [ ("copy/bowling/1.mp4", {[ "label" := 1%Z ]});
         ("copy/archery/2.mp4", {[ "label" := 0%Z ]});
         ("copy/bowling/1.mp4", {[ "label" := 1%Z ]});
         ("copy/archery/1.mp4", {[ "label" := 0%Z ]}) ].

(** Modules where the empty container is false, as [nn.Sequential()] is. *)
Definition module_nonempty (m : string) : bool := negb (String.eqb m "Sequential()").

(** [SemanticSegmentation(num_classes=2, backbone=..., head=...,
    serializer=...)], the rest as in the signature. *)
Definition segmentation_call
    (backbone : @SemanticSegmentation.backbone_arg string)
    (head : option (@SemanticSegmentation.head_arg string))
    (serializer : option (@SemanticSegmentation.serializer_arg unit))
  : @SemanticSegmentation.arguments string decimal string unit unit unit :=
  {| SemanticSegmentation.num_classes := 2%Z;
     SemanticSegmentation.backbone_ := backbone;
     SemanticSegmentation.backbone_kwargs := None;
     SemanticSegmentation.head_ := head;
     SemanticSegmentation.pretrained := true;
     SemanticSegmentation.loss_fn_ := None;
     SemanticSegmentation.optimizer_ := "torch.optim.SGD";
     SemanticSegmentation.metrics_ := None;
     SemanticSegmentation.learning_rate_ := (1%Z, (-3)%Z);
     SemanticSegmentation.multi_label := false;
     SemanticSegmentation.serializer_ := serializer |}.

End Examples.

(** * Theorems *)

(** ** Importing the modules *)

Section ImportFacts.
Import Imports.
Variable env : environment.

Lemma import_outcome_weaken (P Q : nat -> Prop) ns ns0 names names0 r :
  (∀ l, P l -> Q l) ->
  dom ns ∪ list_to_set names ⊆ dom ns0 ∪ (list_to_set names0 : gset string) ->
  import_outcome env P ns names r -> import_outcome env Q ns0 names0 r.
Proof.
  intros HPQ Hsub. destruct r as [ns' | l e ns']; simpl.
  - set_solver.
  - intros (Hl & He & Hd). repeat split; [auto | done | set_solver].
Qed.

Lemma missing_name_exception name module :
  import_exception env (ImportError name module).
Proof. left. by exists name, module. Qed.

Lemma environment_exception module e :
  import_error env module = Some e -> import_exception env e.
Proof. intros H. right. by exists module. Qed.

Lemma bind_names_outcome line module has names ns :
  import_outcome env (eq line) ns names (bind_names line module has names ns).
Proof.
  revert ns. induction names as [| n names IH]; intros ns; simpl.
  - set_solver.
  - destruct (has n) as [v |]; simpl.
    + eapply import_outcome_weaken; [| | apply IH]; [done |].
      rewrite dom_insert_L. set_solver.
    + split; [done |]. split; [apply missing_name_exception | set_solver].
Qed.

Lemma load_external_outcome line module names ns :
  import_outcome env (eq line) ns names (load_external env line module names ns).
Proof.
  unfold load_external. destruct (import_error env module) as [e |] eqn:E.
  - simpl. split; [done |]. split; [by eapply environment_exception | set_solver].
  - apply bind_names_outcome.
Qed.

Lemma exec_simple_outcome (load : loader) (s : simple_stmt) ns :
  loader_ok env load ->
  import_outcome env (eq (simple_line s)) ns (simple_names s)
    (exec_simple_with env load s ns).
Proof.
  intros Hload. destruct s as [l m a | l m names | l m n a | l n p | l n | l n]; simpl.
  - destruct (import_error env m) as [e |] eqn:E; simpl.
    + split; [done |]. split; [by eapply environment_exception | set_solver].
    + rewrite dom_insert_L. set_solver.
  - apply Hload.
  - pose proof (Hload l m [n] ∅) as H.
    destruct (load l m [n] ∅) as [got | l' e got]; simpl in *.
    + destruct (got !! n); simpl.
      * rewrite dom_insert_L. set_solver.
      * split; [done |]. split; [apply missing_name_exception | set_solver].
    + destruct H as (-> & He & _). repeat split; [done | set_solver].
  - rewrite dom_insert_L. set_solver.
  - rewrite dom_insert_L. set_solver.
  - rewrite dom_insert_L. set_solver.
Qed.

Lemma exec_body_outcome (load : loader) (body : list simple_stmt) ns :
  loader_ok env load ->
  import_outcome env (fun l => l ∈ map simple_line body) ns (flat_map simple_names body)
    (exec_body env load (map Simple body) ns).
Proof.
  intros Hload. revert ns. induction body as [| s body IH]; intros ns; simpl.
  - set_solver.
  - pose proof (exec_simple_outcome load s ns Hload) as Hs.
    destruct (exec_simple_with env load s ns) as [ns1 | l e ns1]; simpl in Hs.
    + eapply import_outcome_weaken; [| | apply IH].
      * intros l Hl. by right.
      * rewrite list_to_set_app_L. set_solver.
    + destruct Hs as (<- & He & Hd). simpl. repeat split.
      * by left.
      * done.
      * rewrite list_to_set_app_L. set_solver.
Qed.

Lemma load_module_outcome : loader_ok env (load_module env).
Proof.
  intros line module names ns. unfold load_module, embedded_source.
  destruct (String.eqb module "flash.utils.imports"); [| apply load_external_outcome].
  destruct (import_error env "flash.utils") as [e |] eqn:E.
  { simpl. split; [done |]. split; [by eapply environment_exception | set_solver]. }
  unfold exec_leaf_module.
  pose proof (exec_body_outcome (load_external env)
    (omap (fun s => match s with Simple s => Some s | _ => None end) imports_py) ∅
    load_external_outcome) as H.
  change (map Simple _) with imports_py in H.
  destruct (exec_body env (load_external env) imports_py ∅) as [mod_ns | l e mod_ns].
  - apply bind_names_outcome.
  - simpl in *. destruct H as (_ & He & _). repeat split; [done | set_solver].
Qed.

(** What [imports.py] binds when it loads. *)
Lemma import_imports_py_loaded mod_ns :
  import_imports_py env = Loaded mod_ns ->
  mod_ns !! "_PYTORCHVIDEO_AVAILABLE" = None
  ∧ mod_ns !! "_KORNIA_AVAILABLE" = Some (VBool (_module_available env "kornia")).
Proof.
  unfold import_imports_py, exec_leaf_module, imports_py.
  cbn [exec_body exec_stmt exec_simple_with].
  unfold load_external.
  destruct (import_error env _); [discriminate |].
  cbn [bind_names]. unfold external_lookup.
  destruct (provides env _ _); [| discriminate].
  cbn [bind_names]. intros [= <-]. split; reflexivity.
Qed.

(** Line 31 always raises. *)
Lemma line_31_raises ns :
  ∃ e ns', exec_simple_with env (load_module env) line_31 ns = Raised 31 e ns'
       ∧ (imports_py_loads env = true ->
          e = ImportError "_PYTORCHVIDEO_AVAILABLE" "flash.utils.imports").
Proof.
  unfold imports_py_loads, line_31. cbn [exec_simple_with]. unfold load_module.
  change (embedded_source "flash.utils.imports")
    with (Some ("flash.utils", imports_py)).
  cbn beta iota.
  destruct (import_error env "flash.utils") as [e0 |];
    [eexists _, _; split; [done |]; by rewrite bool_decide_false |].
  fold (import_imports_py env).
  destruct (import_imports_py env) as [mod_ns | l e mod_ns] eqn:E.
  - apply import_imports_py_loaded in E as [Hv Hk].
    cbn [bind_names]. rewrite Hk. cbn [bind_names]. rewrite Hv.
    eexists _, _; split; [reflexivity | done].
  - eexists _, _; split; [reflexivity |]. by rewrite andb_false_r.
Qed.

Lemma exec_body_app (load : loader) (a b : list stmt) ns :
  exec_body env load (a ++ b) ns =
  match exec_body env load a ns with
  | Loaded ns' => exec_body env load b ns'
  | Raised l e ns' => Raised l e ns'
  end.
Proof.
  revert ns. induction a as [| s a IH]; intros ns; simpl; [done |].
  destruct (exec_stmt env load s ns); [apply IH | done].
Qed.

Lemma data_py_split :
  data_py = map Simple before_line_31 ++ Simple line_31 :: after_line_31.
Proof. reflexivity. Qed.

Lemma import_data_py_unfold :
  import_data_py env =
  match exec_body env (load_module env) (map Simple before_line_31) ∅ with
  | Loaded ns1 =>
      match exec_simple_with env (load_module env) line_31 ns1 with
      | Loaded ns2 => exec_body env (load_module env) after_line_31 ns2
      | Raised l e ns2 => Raised l e ns2
      end
  | Raised l e ns1 => Raised l e ns1
  end.
Proof.
  unfold import_data_py. rewrite data_py_split, exec_body_app.
  destruct (exec_body _ _ (map Simple before_line_31) ∅); reflexivity.
Qed.

Lemma lines_before_31 : Forall (fun l => l ≤ 31) (map simple_line before_line_31).
Proof. apply (bool_decide_unpack _). vm_compute. exact I. Qed.

Lemma classes_not_imported :
  Forall (fun c => c ∉ flat_map simple_names before_line_31 ++ simple_names line_31)
         data_py_classes.
Proof. apply (bool_decide_unpack _). vm_compute. exact I. Qed.

Lemma no_class_bound (ns : namespace) :
  dom ns ⊆ list_to_set (flat_map simple_names before_line_31 ++ simple_names line_31) ->
  Forall (fun c => ns !! c = None) data_py_classes.
Proof.
  intros Hd. eapply Forall_impl; [apply classes_not_imported |].
  intros c Hc. apply not_elem_of_dom. intros Hin. apply Hc.
  apply Hd in Hin. by apply elem_of_list_to_set in Hin.
Qed.

Lemma dom_after_prefix (d A B : gset string) :
  d ⊆ ∅ ∪ A -> d ⊆ A ∪ B.
Proof. set_solver. Qed.

Lemma dom_after_line (d0 d A B : gset string) :
  d0 ⊆ ∅ ∪ A -> d ⊆ d0 ∪ B -> d ⊆ A ∪ B.
Proof. set_solver. Qed.

Lemma import_data_py_fails :
  ∃ line e ns,
    import_data_py env = Raised line e ns
    ∧ line ≤ 31
    ∧ import_exception env e
    ∧ Forall (fun c => ns !! c = None) data_py_classes.
Proof.
  rewrite import_data_py_unfold.
  pose proof (exec_body_outcome (load_module env) before_line_31 ∅ load_module_outcome)
    as Hpre.
  destruct (exec_body _ _ (map Simple before_line_31) ∅) as [ns1 | l e ns1];
    simpl in Hpre.
  - destruct (line_31_raises ns1) as (e & ns2 & E & _).
    pose proof (exec_simple_outcome (load_module env) line_31 ns1 load_module_outcome)
      as H31.
    rewrite E in *. simpl in H31. destruct H31 as (_ & He & Hd).
    exists 31, e, ns2. repeat split; [lia | done |].
    apply no_class_bound. rewrite list_to_set_app_L.
    rewrite dom_empty_L in Hpre. exact (dom_after_line _ _ _ _ Hpre Hd).
  - destruct Hpre as (Hl & He & Hd).
    exists l, e, ns1. repeat split; [| done |].
    + pose proof lines_before_31 as Hall. rewrite Forall_forall in Hall.
      by apply Hall.
    + apply no_class_bound. rewrite list_to_set_app_L.
      rewrite dom_empty_L in Hd. exact (dom_after_prefix _ _ _ Hd).
Qed.

Lemma import_exception_is_ImportError e :
  only_import_errors env -> import_exception env e -> is_ImportError e = true.
Proof.
  intros Honly [(name & module & ->) | (module & He)]; [done |].
  by apply (Honly module).
Qed.

Lemma import_data_py_at_line_31 :
  lines_before_31_succeed env = true ->
  imports_py_loads env = true ->
  fails_at_pytorchvideo_import env.
Proof.
  unfold lines_before_31_succeed, fails_at_pytorchvideo_import.
  intros Hpre Hmod. rewrite import_data_py_unfold.
  destruct (exec_body _ _ (map Simple before_line_31) ∅) as [ns1 | l e ns1];
    [| discriminate].
  destruct (line_31_raises ns1) as (e & ns2 & -> & He).
  rewrite (He Hmod). by exists ns2.
Qed.
End ImportFacts.

(** C4, as amended.  [imports.py] assigns exactly the seven availability
    flags and binds no [_PYTORCHVIDEO_AVAILABLE].  In every environment the
    import of [data.py] stops with an exception on line 31 or earlier, with
    neither class of the module bound; the exception is the one that
    importing some module raises there, or the [ImportError] for a name a
    module does not have, so where a failing import always raises
    [ImportError] or its subclass [ModuleNotFoundError] it is such an
    error.  Where lines 14-30 execute and [imports.py] itself loads, the
    import stops at line 31 with the [ImportError] for
    [_PYTORCHVIDEO_AVAILABLE]. *)
Theorem import_of_data_py_fails (env : Imports.environment) :
  Imports.flags_of Imports.imports_py =
    ["_TABNET_AVAILABLE"; "_KORNIA_AVAILABLE"; "_COCO_AVAILABLE"; "_TIMM_AVAILABLE";
     "_TORCHVISION_AVAILABLE"; "_MATPLOTLIB_AVAILABLE"; "_TRANSFORMERS_AVAILABLE"]
  ∧ ("_PYTORCHVIDEO_AVAILABLE" ∉ Imports.bound_names Imports.imports_py)
  ∧ (∃ line e ns,
       Imports.import_data_py env = Imports.Raised line e ns
       ∧ line ≤ 31
       ∧ Imports.import_exception env e
       ∧ (Imports.only_import_errors env -> is_ImportError e = true)
       ∧ Forall (fun c => ns !! c = None) Imports.data_py_classes)
  ∧ (Imports.lines_before_31_succeed env = true ->
     Imports.imports_py_loads env = true ->
     Imports.fails_at_pytorchvideo_import env).
Proof.
  split; [reflexivity |]. split.
  { apply (bool_decide_unpack _). vm_compute. exact I. }
  split; [| apply import_data_py_at_line_31].
  destruct (import_data_py_fails env) as (line & e & ns & Hrun & Hline & He & Hns).
  exists line, e, ns. repeat split; try done.
  intros Honly. by apply (import_exception_is_ImportError env).
Qed.

(** With every module installed, the import stops at line 31. *)
Lemma import_of_data_py_fails_witness :
  Imports.lines_before_31_succeed Imports.full_env = true
  ∧ Imports.imports_py_loads Imports.full_env = true
  ∧ Imports.fails_at_pytorchvideo_import Imports.full_env.
Proof.
  split; [vm_compute; reflexivity |]. split; [vm_compute; reflexivity |].
  apply (import_of_data_py_fails Imports.full_env); vm_compute; reflexivity.
Defined.

(** C4, as stated, fails where torchvision is not installed: the import
    stops at line 25 with [ModuleNotFoundError] for torchvision, before
    line 31 is reached. *)
Lemma import_without_torchvision_stops_at_line_25 :
  (∃ ns, Imports.import_data_py Imports.no_torchvision_env =
           Imports.Raised 25 (ModuleNotFoundError "torchvision") ns)
  ∧ ¬ (∀ env, Imports.fails_at_pytorchvideo_import env).
Proof.
  assert (∃ ns, Imports.import_data_py Imports.no_torchvision_env =
           Imports.Raised 25 (ModuleNotFoundError "torchvision") ns)
    as Hstop.
  { eexists. vm_compute. reflexivity. }
  split; [exact Hstop |].
  intros Hall. destruct Hstop as [ns Hns].
  destruct (Hall Imports.no_torchvision_env) as [ns' Hns'].
  rewrite Hns in Hns'. discriminate Hns'.
Qed.

(** Where torch cannot initialise, the import stops at line 18 with the
    exception torch raised, which is no [ImportError]. *)
Example import_with_broken_torch_stops_at_line_18 :
  ∃ ns, Imports.import_data_py Imports.broken_torch_env =
          Imports.Raised 18 (ExternalError "OSError") ns.
Proof. eexists. vm_compute. reflexivity. Qed.

(** ** The preprocess object *)

Section PreprocessTheorems.
Import Video.
Context {Sample ClipSampler VideoSampler Data EncodedVideoDataset : Type}.
Variable as_callable : option (@transforms Sample) -> Sample -> Sample.
Variable labeled_encoded_video_dataset :
  Data -> ClipSampler -> VideoSampler -> bool -> string -> result EncodedVideoDataset.
Variable _labeled_videos : EncodedVideoDataset -> list (string * gmap string Z).

Abbreviation preprocess := (@VideoClassificationPreprocess Sample ClipSampler VideoSampler).
Abbreviation load := (load_data labeled_encoded_video_dataset _labeled_videos).

(** C3.  Whatever split is active, each of the five hooks returns
    [current_transform] applied to its argument, and with split [stage]
    active [current_transform] is the callable made from the transform
    set held for [stage]; nothing in the hooks depends on which split it
    is. *)
Theorem hooks_return_current_transform (self : preprocess) (sample : Sample) :
  pre_tensor_transform as_callable self sample
    = current_transform as_callable (base self) sample
  ∧ to_tensor_transform as_callable self sample
    = current_transform as_callable (base self) sample
  ∧ post_tensor_transform as_callable self sample
    = current_transform as_callable (base self) sample
  ∧ per_batch_transform as_callable self sample
    = current_transform as_callable (base self) sample
  ∧ per_batch_transform_on_device as_callable self sample
    = current_transform as_callable (base self) sample
  ∧ (∀ h, call_hook as_callable self h sample
          = current_transform as_callable (base self) sample)
  ∧ (∀ stage,
       current_transform as_callable (base (with_stage (Some stage) self))
       = as_callable (transform_of (base self) stage)).
Proof.
  repeat split; try reflexivity.
  intros h. destruct h; reflexivity.
Qed.

(** C5.  The preprocess built by [__init__] holds, for each split, the
    one dictionary (or [None]) passed for that split. *)
Theorem init_keeps_one_transform_set_per_split
    (clip_sampler : ClipSampler) (video_sampler : VideoSampler)
    (decode_audio : bool) (decoder : string)
    (train_transform val_transform test_transform predict_transform :
       option (@transforms Sample))
    (stage : RunningStage) :
  transform_of
    (base (__init__ clip_sampler video_sampler decode_audio decoder
             train_transform val_transform test_transform predict_transform))
    stage
  = match stage with
    | TRAINING => train_transform
    | VALIDATING => val_transform
    | TESTING => test_transform
    | PREDICTING => predict_transform
    end.
Proof. destruct stage; reflexivity. Qed.

(** [len(np.unique(labels))] is the number of distinct labels. *)
Lemma len_unique_distinct (labels : list Z) :
  len_unique labels = Z.of_nat (size (list_to_set labels : gset Z)).
Proof.
  unfold len_unique. f_equal.
  rewrite <- (size_list_to_set (C := gset Z) (remove_dups labels))
    by apply NoDup_remove_dups.
  f_equal. apply set_eq. intros x.
  rewrite !elem_of_list_to_set. apply elem_of_remove_dups.
Qed.

Lemma training_with_stage (s : option RunningStage) (self : preprocess) :
  training (base (with_stage s self)) = bool_decide (s = Some TRAINING).
Proof. reflexivity. Qed.

(** C10.  [load_data] leaves [dataset] as it is unless the training
    split is active; when it is and the call returns, [num_classes] has
    been set to the number of distinct labels of the loaded videos and
    nothing else has changed; whichever split is active, a returned
    dataset is the one [labeled_encoded_video_dataset] built from the
    preprocess's own settings. *)
Theorem load_data_sets_num_classes_only_when_training
    (self : preprocess) (data : Data) (dataset : attrs) :
  (training (base self) = false -> (load self data dataset).2 = dataset)
  ∧ (training (base self) = true ->
     ∀ ds, (load self data dataset).1 = Ok ds ->
       ∃ labels,
         labels_of (_labeled_videos ds) = Ok labels
         ∧ (load self data dataset).2
           = <["num_classes" := VInt (Z.of_nat (size (list_to_set labels : gset Z)))]>
               dataset)
  ∧ (∀ s ds, (load (with_stage s self) data dataset).1 = Ok ds ->
       labeled_encoded_video_dataset data (clip_sampler self) (video_sampler self)
         (decode_audio self) (decoder self) = Ok ds)
  ∧ (∀ s1 s2 ds1 ds2,
       (load (with_stage s1 self) data dataset).1 = Ok ds1 ->
       (load (with_stage s2 self) data dataset).1 = Ok ds2 ->
       ds1 = ds2).
Proof.
  assert (∀ s ds, (load (with_stage s self) data dataset).1 = Ok ds ->
       labeled_encoded_video_dataset data (clip_sampler self) (video_sampler self)
         (decode_audio self) (decoder self) = Ok ds) as Hsame.
  { intros s ds. unfold load_data. simpl.
    destruct (labeled_encoded_video_dataset _ _ _ _ _) as [ds' | e]; [| discriminate].
    destruct (training _); [| by intros [= ->]].
    destruct (labels_of _); [by intros [= ->] | discriminate]. }
  repeat split.
  - intros Hmode. unfold load_data. rewrite Hmode.
    by destruct (labeled_encoded_video_dataset _ _ _ _ _).
  - intros Hmode ds. unfold load_data. rewrite Hmode.
    destruct (labeled_encoded_video_dataset _ _ _ _ _) as [ds' | e]; [| discriminate].
    destruct (labels_of (_labeled_videos ds')) as [labels | e] eqn:El; [| discriminate].
    simpl. intros [= <-]. exists labels. rewrite El, len_unique_distinct. done.
  - exact Hsame.
  - intros s1 s2 ds1 ds2 H1%Hsame H2%Hsame. congruence.
Qed.
End PreprocessTheorems.

(** ** The staged pipeline *)

Section PipelineTheorems.
Import Video.
Context {Sample ClipSampler VideoSampler Data EncodedVideoDataset : Type}.
Variable as_callable : option (@transforms Sample) -> Sample -> Sample.
Variable labeled_encoded_video_dataset :
  Data -> ClipSampler -> VideoSampler -> bool -> string -> result EncodedVideoDataset.
Variable _labeled_videos : EncodedVideoDataset -> list (string * gmap string Z).
Variable clips : EncodedVideoDataset -> list Sample.
Variable collate : list Sample -> Sample.

Abbreviation preprocess := (@VideoClassificationPreprocess Sample ClipSampler VideoSampler).
Abbreviation calls_of self := (fun js : nat * Sample => sample_calls as_callable self js.1 js.2).
Abbreviation batch_trace self :=
  (fun b : list (nat * Sample) =>
     flat_map (calls_of self) b ++ batch_calls as_callable collate self b).

Lemma run_batch_spec (self : preprocess) (b : list (nat * Sample)) :
  run_batch as_callable collate self b
  = (batch_trace self b, batch_result as_callable collate self b).
Proof.
  unfold run_batch.
  assert (map snd (map (fun '(i, s) => run_hooks as_callable self sample_hooks [i] s) b)
          = map (fun js => per_sample as_callable self js.2) b) as ->.
  { induction b as [| [i s] b IH]; [done |]. cbn [map]. by rewrite IH. }
  assert (flat_map fst (map (fun '(i, s) => run_hooks as_callable self sample_hooks [i] s) b)
          = flat_map (calls_of self) b) as ->.
  { induction b as [| [i s] b IH]; [done |]. cbn [map flat_map]. by rewrite IH. }
  reflexivity.
Qed.

Lemma batches_concat {A : Type} k (acc l : list A) :
  concat (batches k acc l) = rev acc ++ l.
Proof.
  revert acc. induction l as [| x l IH]; intros acc; simpl.
  - destruct acc; simpl; by rewrite ?app_nil_r.
  - destruct (decide _); simpl.
    + rewrite IH. simpl. by rewrite <- app_assoc.
    + rewrite IH. simpl. by rewrite <- app_assoc.
Qed.

Lemma enumerate_indices {A : Type} (l : list A) :
  map fst (enumerate l) = seq 0 (length l).
Proof. unfold enumerate. apply fst_zip. by rewrite length_seq. Qed.

Lemma elem_of_concat {A : Type} (x : A) (ls : list (list A)) :
  x ∈ concat ls -> ∃ l, l ∈ ls ∧ x ∈ l.
Proof.
  induction ls as [| l ls IH]; simpl; [by intros ?%elem_of_nil |].
  intros [Hin | Hin]%elem_of_app.
  - exists l. split; [left | done].
  - destruct (IH Hin) as (l' & Hl' & Hx). exists l'. split; [by right | done].
Qed.

(** The trace and the results of a split that loaded. *)
Lemma run_split_loaded (self : preprocess) stage data dataset batch_size tr out dataset' :
  run_split as_callable labeled_encoded_video_dataset _labeled_videos clips collate
    self stage data dataset batch_size = (Ok (tr, out), dataset') ->
  ∃ ds,
    load_data labeled_encoded_video_dataset _labeled_videos
      (with_stage (Some stage) self) data dataset = (Ok ds, dataset')
    ∧ tr = (load_data_, map fst (enumerate (clips ds)), None)
           :: flat_map (batch_trace (with_stage (Some stage) self))
                (batches batch_size [] (enumerate (clips ds)))
    ∧ out = map (batch_result as_callable collate (with_stage (Some stage) self))
              (batches batch_size [] (enumerate (clips ds))).
Proof.
  unfold run_split.
  destruct (load_data _ _ _ _ _) as [[ds | e] d]; [| discriminate].
  intros [= <- <- <-]. exists ds. split; [done |].
  generalize (batches batch_size [] (enumerate (clips ds))). intros bl. split.
  - f_equal. induction bl as [| b bl IH]; [done |].
    cbn [map flat_map]. by rewrite IH, run_batch_spec.
  - induction bl as [| b bl IH]; [done |].
    cbn [map]. by rewrite IH, run_batch_spec.
Qed.

Lemma filter_sample_calls_other (self : preprocess) i (b : list (nat * Sample)) :
  i ∉ map fst b -> filter (touches i) (flat_map (calls_of self) b) = [].
Proof.
  induction b as [| [j s] b IH]; [done |].
  intros Hout. change (flat_map (calls_of self) ((j, s) :: b))
    with (sample_calls as_callable self j s ++ flat_map (calls_of self) b).
  rewrite filter_app, IH by (intros Hin; apply Hout; by right).
  assert (i ≠ j) as Hne by (intros ->; apply Hout; left).
  unfold sample_calls. cbv zeta.
  rewrite !filter_cons_False, filter_nil;
    try (unfold touches; simpl; by intros ?%list_elem_of_singleton). done.
Qed.

Lemma filter_sample_calls (self : preprocess) i s (b : list (nat * Sample)) :
  NoDup (map fst b) -> (i, s) ∈ b ->
  filter (touches i) (flat_map (calls_of self) b) = sample_calls as_callable self i s.
Proof.
  induction b as [| [j s'] b IH]; [by intros _ ?%elem_of_nil |].
  cbn [map fst]. intros [Hj Hnd]%NoDup_cons Hin.
  change (flat_map (calls_of self) ((j, s') :: b))
    with (sample_calls as_callable self j s' ++ flat_map (calls_of self) b).
  rewrite filter_app. apply elem_of_cons in Hin as [[= <- <-] | Hin].
  - rewrite filter_sample_calls_other by done. rewrite app_nil_r.
    unfold sample_calls. cbv zeta.
    rewrite !filter_cons_True by (unfold touches; simpl; by left). done.
  - assert (i ≠ j) as Hne.
    { intros ->. apply Hj. apply list_elem_of_fmap. by exists (j, s). }
    rewrite IH by done.
    assert (filter (touches i) (sample_calls as_callable self j s') = []) as ->; [| done].
    unfold sample_calls. cbv zeta.
    rewrite !filter_cons_False, filter_nil;
      try (unfold touches; simpl; by intros ?%list_elem_of_singleton). done.
Qed.

Lemma filter_batch_calls (self : preprocess) i (b : list (nat * Sample)) :
  filter (touches i) (batch_calls as_callable collate self b)
  = if decide (i ∈ map fst b) then batch_calls as_callable collate self b else [].
Proof.
  unfold batch_calls. cbv zeta. destruct (decide (i ∈ map fst b)).
  - by rewrite !filter_cons_True by done.
  - by rewrite !filter_cons_False by done.
Qed.

Lemma filter_batches_other (self : preprocess) i (bl : list (list (nat * Sample))) :
  i ∉ map fst (concat bl) ->
  filter (touches i) (flat_map (batch_trace self) bl) = [].
Proof.
  induction bl as [| b bl IH]; [done |].
  change (flat_map (batch_trace self) (b :: bl))
    with (batch_trace self b ++ flat_map (batch_trace self) bl).
  change (concat (b :: bl)) with (b ++ concat bl).
  rewrite map_app. intros Hout.
  rewrite !filter_app, IH by (intros Hin; apply Hout, elem_of_app; by right).
  assert (i ∉ map fst b) as Hb by (intros Hin; apply Hout, elem_of_app; by left).
  rewrite filter_sample_calls_other, filter_batch_calls by done.
  by rewrite decide_False by done.
Qed.

Lemma filter_batches (self : preprocess) i s b (bl : list (list (nat * Sample))) :
  NoDup (map fst (concat bl)) -> b ∈ bl -> (i, s) ∈ b ->
  filter (touches i) (flat_map (batch_trace self) bl)
  = sample_calls as_callable self i s ++ batch_calls as_callable collate self b.
Proof.
  induction bl as [| b0 bl IH]; [by intros _ ?%elem_of_nil |].
  change (flat_map (batch_trace self) (b0 :: bl))
    with (batch_trace self b0 ++ flat_map (batch_trace self) bl).
  change (concat (b0 :: bl)) with (b0 ++ concat bl).
  rewrite map_app. intros (Hb0 & Hdisj & Hbl)%NoDup_app Hb Hin.
  assert (i ∈ map fst b) as Hib by (apply list_elem_of_fmap; by exists (i, s)).
  rewrite !filter_app. apply elem_of_cons in Hb as [-> | Hb].
  - rewrite (filter_sample_calls self i s b0), filter_batch_calls by done.
    rewrite decide_True by done.
    rewrite filter_batches_other by (by apply Hdisj). by rewrite app_nil_r.
  - assert (i ∉ map fst b0) as Hout.
    { intros Hi0. apply (Hdisj i Hi0). apply list_elem_of_fmap. exists (i, s).
      split; [done |]. clear -Hb Hin. induction bl as [| b1 bl IH].
      - by apply elem_of_nil in Hb.
      - simpl. apply elem_of_app. apply elem_of_cons in Hb as [-> | Hb];
          [by left | right; by apply IH]. }
    rewrite filter_sample_calls_other, filter_batch_calls by done.
    rewrite decide_False by done. simpl. by apply IH.
Qed.

(** Everything before a hook in the contract has run once the hooks that
    touched a sample are the contract's, in order. *)
Lemma order_gives_precedence (tr : list (event Sample)) i :
  map ev_hook (filter (touches i) tr) = hook_order ->
  ∀ before e after, tr = before ++ e :: after -> touches i e ->
  ∀ h, hook_rank h < hook_rank (ev_hook e) ->
  ∃ e', e' ∈ before ∧ ev_hook e' = h ∧ touches i e'.
Proof.
  intros Horder before e after -> He h Hrank.
  rewrite filter_app, filter_cons_True, map_app in Horder by done.
  cbn [map] in Horder.
  assert (h ∈ map ev_hook (filter (touches i) before)) as Hin.
  { revert Horder Hrank. generalize (map ev_hook (filter (touches i) before)) as A.
    generalize (map ev_hook (filter (touches i) after)) as B.
    generalize (ev_hook e) as x. unfold hook_order, sample_hooks, batch_hooks.
    cbn [map app].
    intros x B A Heq Hrank.
    do 6 (destruct A as [| ? A];
          [ simpl in Heq; injection Heq as -> _;
            destruct h as [| []]; simpl in Hrank; try lia;
            repeat (first [ by left | right ])
          | simpl in Heq; injection Heq as -> Heq ]).
    by destruct A. }
  apply list_elem_of_fmap in Hin as (e' & -> & [Ht Hin']%list_elem_of_filter).
  by exists e'.
Qed.

(** C2.  In a split that loaded, the batches that come out are what
    [per_batch_transform_on_device] returned for what
    [per_batch_transform] returned for the collated results of
    [post_tensor_transform] after [to_tensor_transform] after
    [pre_tensor_transform] on each sample.  The hook invocations that
    handle a sample are, in the order they happen, [load_data] and these
    five calls, each made on what the one before returned; so they are the
    six hooks of the contract in its order, each once, and whenever a hook
    runs on a sample every earlier hook of the contract has already run on
    it. *)
Theorem hooks_run_in_the_fixed_order
    (self : preprocess) stage data dataset batch_size tr out dataset' i :
  run_split as_callable labeled_encoded_video_dataset _labeled_videos clips collate
    self stage data dataset batch_size = (Ok (tr, out), dataset') ->
  (∃ e, e ∈ tr ∧ touches i e) ->
  ∃ ds s b,
    load_data labeled_encoded_video_dataset _labeled_videos
      (with_stage (Some stage) self) data dataset = (Ok ds, dataset')
    ∧ out = map (batch_result as_callable collate (with_stage (Some stage) self))
              (batches batch_size [] (enumerate (clips ds)))
    ∧ clips ds !! i = Some s
    ∧ b ∈ batches batch_size [] (enumerate (clips ds))
    ∧ (i, s) ∈ b
    ∧ filter (touches i) tr
      = (load_data_, map fst (enumerate (clips ds)), None)
        :: sample_calls as_callable (with_stage (Some stage) self) i s
        ++ batch_calls as_callable collate (with_stage (Some stage) self) b
    ∧ map ev_hook (filter (touches i) tr) = hook_order
    ∧ (∀ before e after, tr = before ++ e :: after -> touches i e ->
       ∀ h, hook_rank h < hook_rank (ev_hook e) ->
       ∃ e', e' ∈ before ∧ ev_hook e' = h ∧ touches i e').
Proof.
  intros (ds & Hload & -> & ->)%run_split_loaded Hi.
  set (self' := with_stage (Some stage) self) in *.
  set (samples := enumerate (clips ds)) in *.
  assert (NoDup (map fst samples)) as Hnd
    by (unfold samples; rewrite enumerate_indices; apply NoDup_seq).
  assert (concat (batches batch_size [] samples) = samples) as Hcat
    by (by rewrite batches_concat).
  assert (i ∈ map fst samples) as Hin.
  { destruct (decide (i ∈ map fst samples)) as [| Hout]; [done |]. exfalso.
    destruct Hi as (e & He & Ht). apply elem_of_cons in He as [-> | He]; [done |].
    assert (e ∈ filter (touches i)
                  (flat_map (batch_trace self') (batches batch_size [] samples))) as Hf
      by (by apply list_elem_of_filter).
    rewrite filter_batches_other in Hf by (by rewrite Hcat).
    by apply elem_of_nil in Hf. }
  apply list_elem_of_fmap in Hin as ([j s] & Hj & Hjs). simpl in Hj. subst j.
  assert (clips ds !! i = Some s) as Hs.
  { apply list_elem_of_lookup in Hjs as [k Hk]. unfold samples, enumerate in Hk.
    apply lookup_zip_with_Some in Hk as (a & c & [= -> ->] & Ha & Hc).
    apply lookup_seq in Ha as [-> _]. exact Hc. }
  pose proof Hjs as Hb. rewrite <- Hcat in Hb.
  apply elem_of_concat in Hb as (b & Hb & Hib).
  assert (filter (touches i)
            ((load_data_, map fst samples, None)
             :: flat_map (batch_trace self') (batches batch_size [] samples))
          = (load_data_, map fst samples, None)
            :: sample_calls as_callable self' i s
            ++ batch_calls as_callable collate self' b) as Hfilter.
  { rewrite filter_cons_True
      by (unfold touches; simpl; apply list_elem_of_fmap; by exists (i, s)).
    f_equal. apply filter_batches; [by rewrite Hcat | done | done]. }
  assert (map ev_hook
            (filter (touches i)
               ((load_data_, map fst samples, None)
                :: flat_map (batch_trace self') (batches batch_size [] samples)))
          = hook_order) as Horder by (by rewrite Hfilter).
  exists ds, s, b. repeat split; try done.
  by apply order_gives_precedence.
Qed.
End PipelineTheorems.

(** ** The data module *)

Section DataModuleTheorems.
Import VideoClassificationData.
Context {Sample ClipSampler VideoSampler float Preprocess DataModule : Type}.
Variable available : bool.
Variable make_clip_sampler :
  @clip_sampler_arg ClipSampler -> float -> gmap string value -> result ClipSampler.

Abbreviation class := (@data_module_class Sample ClipSampler VideoSampler Preprocess DataModule).
Abbreviation args :=
  (@arguments Sample ClipSampler VideoSampler float Preprocess).
Abbreviation run := (from_paths available make_clip_sampler).

Lemma kwargs_normalised (a : args) :
  (if kwargs_falsy (clip_sampler_kwargs a) then ∅
   else default ∅ (clip_sampler_kwargs a)) = sampler_kwargs a.
Proof.
  unfold kwargs_falsy, sampler_kwargs.
  destruct (clip_sampler_kwargs a) as [m |]; simpl; [| done].
  case_bool_decide; by subst.
Qed.

(** A call that returns went through the three calls, in order, and
    returns what [from_load_data_inputs] gave. *)
Lemma from_paths_returns (cls : class) (a : args) log dm :
  run cls a = (log, Return dm) ->
  ∃ sampler p,
    make_clip_sampler (clip_sampler a) (clip_duration a) (sampler_kwargs a) = Ok sampler
    ∧ default (preprocess_cls cls) (preprocess_cls_arg a) (init_args a sampler) = Ok p
    ∧ from_load_data_inputs cls (inputs_of a p) = Ok dm
    ∧ log = [ make_clip_sampler_call (clip_sampler a) (clip_duration a) (sampler_kwargs a);
              preprocess_cls_call (init_args a sampler);
              from_load_data_inputs_call (inputs_of a p) ].
Proof.
  unfold from_paths. rewrite kwargs_normalised.
  destruct available; [| discriminate]. cbn [negb].
  destruct (clip_sampler_truthy (clip_sampler a)); [| discriminate]. cbn [negb].
  unfold instantiate_preprocess, call, bind, ret, raise.
  fold (init_args a).
  destruct (make_clip_sampler _ _ _) as [sampler | e] eqn:Es; [| discriminate].
  fold (init_args a sampler).
  destruct (default (preprocess_cls cls) (preprocess_cls_arg a) (init_args a sampler))
    as [p | e] eqn:Ep; [| discriminate].
  fold (inputs_of a p).
  destruct (repeated_keyword _ _); [discriminate |].
  destruct (from_load_data_inputs cls (inputs_of a p)) as [dm' | e] eqn:Ed;
    [| discriminate].
  simpl. intros H. injection H as <- <-. by exists sampler, p.
Qed.

(** C6.  A call of [from_paths] that returns has made exactly three
    calls: [make_clip_sampler], the preprocess class, and
    [from_load_data_inputs] with the four folders, [batch_size],
    [num_workers] and the preprocess just instantiated; the data module
    it returns is the one [from_load_data_inputs] built.  Datasets and
    dataloaders are not built in [from_paths]. *)
Theorem from_paths_delegates_to_from_load_data_inputs (cls : class) (a : args) log dm :
  run cls a = (log, Return dm) ->
  ∃ sampler p inputs,
    make_clip_sampler (clip_sampler a) (clip_duration a) (sampler_kwargs a) = Ok sampler
    ∧ instantiate_preprocess (float := float) cls sampler (video_sampler a) (decode_audio a) (decoder a)
        (train_transform a) (val_transform a) (test_transform a) (predict_transform a)
        (preprocess_cls_arg a)
      = ([preprocess_cls_call (init_args a sampler)], Return p)
    ∧ DataModuleBase.train_load_data_input inputs = train_folder a
    ∧ DataModuleBase.val_load_data_input inputs = val_folder a
    ∧ DataModuleBase.test_load_data_input inputs = test_folder a
    ∧ DataModuleBase.predict_load_data_input inputs = predict_folder a
    ∧ DataModuleBase.batch_size inputs = batch_size a
    ∧ DataModuleBase.num_workers inputs = num_workers a
    ∧ DataModuleBase.preprocess inputs = p
    ∧ DataModuleBase.kwargs inputs = kwargs a
    ∧ from_load_data_inputs cls inputs = Ok dm
    ∧ log = [ make_clip_sampler_call (clip_sampler a) (clip_duration a) (sampler_kwargs a);
              preprocess_cls_call (init_args a sampler);
              from_load_data_inputs_call inputs ].
Proof.
  intros (sampler & p & Hs & Hp & Hd & ->)%from_paths_returns.
  exists sampler, p, (inputs_of a p). repeat split; try done.
  unfold instantiate_preprocess, call, bind, ret. fold (init_args a sampler).
  by rewrite Hp.
Qed.

(** What [from_paths] does when it does not get as far as its calls. *)
Lemma from_paths_unavailable (cls : class) (a : args) :
  available = false ->
  run cls a = ([], Raise (ModuleNotFoundError "Please, run `pip install pytorchvideo`.")).
Proof. intros Hav. unfold from_paths. by rewrite Hav. Qed.

Lemma from_paths_no_sampler (cls : class) (a : args) :
  available = true ->
  clip_sampler_truthy (clip_sampler a) = false ->
  ∃ msg, run cls a = ([], Raise (MisconfigurationException msg)).
Proof. intros Hav Hc. unfold from_paths. rewrite Hav, Hc. by eexists. Qed.

Lemma from_paths_with_sampler (cls : class) (a : args) msg :
  available = true ->
  clip_sampler_truthy (clip_sampler a) = true ->
  (run cls a).2 ≠ Raise (MisconfigurationException msg).
Proof.
  intros Hav Hc. unfold from_paths. rewrite Hav, Hc. cbn [negb].
  unfold instantiate_preprocess, call, bind, ret, raise.
  destruct (make_clip_sampler _ _ _) as [sampler | e]; [| done].
  match goal with
  | |- context [default (preprocess_cls cls) (preprocess_cls_arg a) ?x] =>
      destruct (default (preprocess_cls cls) (preprocess_cls_arg a) x) as [p | e]
  end; [| done].
  destruct (repeated_keyword _ _); [done |].
  by destruct (from_load_data_inputs cls _).
Qed.

(** With a [clip_sampler] that passes the check, an exception that leaves
    [from_paths] has come out of one of its callees, or is the
    [TypeError] of a repeated keyword. *)
Lemma from_paths_with_sampler_leaves (cls : class) (a : args) e :
  available = true ->
  clip_sampler_truthy (clip_sampler a) = true ->
  exception_of (run cls a).2 = Some e ->
  (∃ callee, (run cls a).2 = Propagate callee e)
  ∨ (∃ k, e = TypeError k ∧ (run cls a).2 = Raise e).
Proof.
  intros Hav Hc. unfold from_paths. rewrite Hav, Hc. cbn [negb].
  unfold instantiate_preprocess, call, bind, ret, raise.
  destruct (make_clip_sampler _ _ _) as [sampler | e1];
    [| simpl; intros [= <-]; left; by eexists].
  match goal with
  | |- context [default (preprocess_cls cls) (preprocess_cls_arg a) ?x] =>
      destruct (default (preprocess_cls cls) (preprocess_cls_arg a) x) as [p | e2]
  end; [| simpl; intros [= <-]; left; by eexists].
  destruct (repeated_keyword _ _) as [k |];
    [simpl; intros [= <-]; right; by exists k |].
  destruct (from_load_data_inputs cls _) as [dm | e3];
    [discriminate | simpl; intros [= <-]; left; by eexists].
Qed.

(** C9, as amended.  Without pytorchvideo [from_paths] raises
    [ModuleNotFoundError] whatever its arguments, having called nothing.
    With pytorchvideo, [from_paths] itself raises
    [MisconfigurationException] exactly when [clip_sampler] is false as a
    truth value, as [None] and the empty string are, and then it has called
    neither [make_clip_sampler] nor a preprocess class nor
    [from_load_data_inputs].  With a [clip_sampler] that is true, a
    [MisconfigurationException] leaves [from_paths] only by being passed
    on from one of these three callees. *)
Theorem from_paths_rejects_a_missing_clip_sampler (cls : class) (a : args) :
  (available = false ->
   run cls a = ([], Raise (ModuleNotFoundError "Please, run `pip install pytorchvideo`.")))
  ∧ (available = true ->
     ((∃ msg, (run cls a).2 = Raise (MisconfigurationException msg))
      ↔ clip_sampler_truthy (clip_sampler a) = false))
  ∧ (available = true -> clip_sampler_truthy (clip_sampler a) = false ->
     (run cls a).1 = []
     ∧ ∃ msg, exception_of (run cls a).2 = Some (MisconfigurationException msg))
  ∧ (available = true -> clip_sampler_truthy (clip_sampler a) = true ->
     ∀ msg, exception_of (run cls a).2 = Some (MisconfigurationException msg) ->
            ∃ callee, (run cls a).2 = Propagate callee (MisconfigurationException msg))
  ∧ clip_sampler_truthy (@ClipSamplerNone ClipSampler) = false
  ∧ clip_sampler_truthy (@ClipSamplerName ClipSampler "") = false.
Proof.
  split; [apply from_paths_unavailable |].
  split; [| split; [| split; [| done]]].
  - intros Hav. split.
    + intros [msg Hmsg].
      destruct (clip_sampler_truthy (clip_sampler a)) eqn:Hc; [| done].
      by destruct (from_paths_with_sampler cls a msg Hav Hc).
    + intros Hc. destruct (from_paths_no_sampler cls a Hav Hc) as [msg ->].
      by exists msg.
  - intros Hav Hc. destruct (from_paths_no_sampler cls a Hav Hc) as [msg ->].
    split; [done | by exists msg].
  - intros Hav Hc msg Hleaves.
    destruct (from_paths_with_sampler_leaves cls a _ Hav Hc Hleaves)
      as [Hcallee | (k & Hk & _)]; [done | discriminate Hk].
Qed.
End DataModuleTheorems.

Section IterableDatasetTheorems.
Import Video.
Context {Sample ClipSampler VideoSampler float Data EncodedVideoDataset
         Preprocess DataModule : Type}.
Variable available : bool.
Variable make_clip_sampler :
  @VideoClassificationData.clip_sampler_arg ClipSampler ->
  float -> gmap string value -> result ClipSampler.
Variable labeled_encoded_video_dataset :
  Data -> ClipSampler -> VideoSampler -> bool -> string -> result EncodedVideoDataset.
Variable _labeled_videos : EncodedVideoDataset -> list (string * gmap string Z).

(** C7.  A call of [from_paths] that returns has called
    [from_load_data_inputs], which gave the data module, and only with
    [use_iterable_auto_dataset=True].  [load_data] of a preprocess built
    by [__init__] hands the folder, the clip sampler, the video sampler,
    the [decode_audio] flag and the decoder it was built with to
    [labeled_encoded_video_dataset]: a dataset it returns is the one that
    call built, and outside the training split it returns just what that
    call gave. *)
Theorem from_paths_asks_for_iterable_datasets
    (cls : @VideoClassificationData.data_module_class Sample ClipSampler VideoSampler
             Preprocess DataModule)
    (a : @VideoClassificationData.arguments Sample ClipSampler VideoSampler float
           Preprocess)
    (clip_sampler : ClipSampler) (video_sampler : VideoSampler) (decode_audio : bool)
    (decoder : string)
    (train_transform val_transform test_transform predict_transform :
       option (@transforms Sample))
    (stage : option RunningStage) (data : Data) (dataset : attrs) :
  (∀ log dm,
     VideoClassificationData.from_paths available make_clip_sampler cls a
       = (log, Return dm) ->
     (∃ inputs,
        VideoClassificationData.from_load_data_inputs_call inputs ∈ log
        ∧ VideoClassificationData.from_load_data_inputs cls inputs = Ok dm)
     ∧ (∀ inputs,
          VideoClassificationData.from_load_data_inputs_call inputs ∈ log ->
          DataModuleBase.use_iterable_auto_dataset inputs = true))
  ∧ (let self :=
       with_stage stage
         (__init__ clip_sampler video_sampler decode_audio decoder
            train_transform val_transform test_transform predict_transform) in
     let built :=
       labeled_encoded_video_dataset data clip_sampler video_sampler decode_audio
         decoder in
     (∀ ds, (load_data labeled_encoded_video_dataset _labeled_videos self data
               dataset).1 = Ok ds -> built = Ok ds)
     ∧ (stage ≠ Some TRAINING ->
        (load_data labeled_encoded_video_dataset _labeled_videos self data dataset).1
        = built)).
Proof.
  split.
  - intros log dm (sampler & p & Hs & Hp & Hd & ->)%from_paths_returns. split.
    + eexists. split; [| exact Hd]. set_solver.
    + intros inputs Hin. repeat (apply elem_of_cons in Hin as [Heq | Hin]);
        try discriminate Heq; [| by apply elem_of_nil in Hin].
      by injection Heq as ->.
  - cbv zeta. unfold load_data. rewrite training_with_stage.
    cbn [Video.clip_sampler Video.video_sampler Video.decode_audio Video.decoder
         with_stage __init__ base].
    match goal with
    | |- context [labeled_encoded_video_dataset ?d ?c ?v ?b ?s] =>
        destruct (labeled_encoded_video_dataset d c v b s) as [ds | e]
    end.
    + split.
      * intros ds'. case_bool_decide; [| by intros [= ->]].
        destruct (labels_of _); [by intros [= ->] | discriminate].
      * intros Hstage. by rewrite bool_decide_false.
    + split; [discriminate | done].
Qed.
End IterableDatasetTheorems.

(** ** The segmentation task *)

Section SegmentationTheorems.
Import SemanticSegmentation.
Context {Tensor Module_ float Optimizer UserMetrics UserLoss UserSerializer : Type}.
Variable call_module : Module_ -> Tensor -> result Tensor.
Variable module_truthy : Module_ -> bool.
Variable Conv2d : Z -> Z -> Z -> Module_.

Abbreviation args :=
  (@arguments Module_ float Optimizer UserMetrics UserLoss UserSerializer).
Abbreviation init := (@__init__ Module_ float Optimizer UserMetrics UserLoss
                        UserSerializer module_truthy Conv2d).

(** Whatever the arguments, the task is built without a backbone. *)
Lemma init_has_no_backbone (a : args) : backbone (init a) = None.
Proof. reflexivity. Qed.

(** C1, evaluated.  For a backbone name that is registered, the claim
    asks for the module the registered constructor builds and for
    [forward] to be the head applied to that module's output.
    [__init__] never consults the registry: the backbone attribute is
    [None], and [forward] raises [TypeError] on every input. *)
Theorem registered_backbone_is_not_used
    (backbones : FlashRegistry) (a : args) (name : string)
    (constructor : backbone_constructor) (x : Tensor) :
  backbone_ a = backbone_name name ->
  backbones !! name = Some constructor ->
  let wanted := (constructor (pretrained a) (default ∅ (backbone_kwargs a))).1 in
  registered_backbone backbones a = Some wanted
  ∧ backbone (init a) = None
  ∧ backbone (init a) ≠ registered_backbone backbones a
  ∧ forward call_module (init a) x = Err (TypeError "'NoneType' object is not callable")
  ∧ (∀ y, head_of_backbone call_module wanted (head (init a)) x = Ok y ->
          forward call_module (init a) x ≠ head_of_backbone call_module wanted (head (init a)) x).
Proof.
  intros Hname Hreg wanted.
  assert (registered_backbone backbones a = Some wanted) as Hwanted.
  { unfold registered_backbone. rewrite Hname.
    unfold FlashRegistry, backbone_constructor in *. by rewrite Hreg. }
  repeat split; try done.
  - rewrite Hwanted. discriminate.
  - intros y Hy. rewrite Hy. discriminate.
Qed.

(** C8.  With [metrics=None] the task gets
    [Accuracy(subset_accuracy=multi_label)], with [loss_fn=None] it gets
    [F.cross_entropy], and with [serializer=None] it gets
    [Classes(multi_label=multi_label)]. *)
Theorem init_wires_in_the_defaults (a : args) :
  (metrics_ a = None ->
   metrics (task (__init__ module_truthy Conv2d a)) = Accuracy (multi_label a))
  ∧ (loss_fn_ a = None ->
     loss_fn (task (__init__ module_truthy Conv2d a)) = F_cross_entropy)
  ∧ (serializer_ a = None ->
     serializer (task (__init__ module_truthy Conv2d a)) = Classes (multi_label a)).
Proof.
  repeat split; intros H; simpl; by rewrite H.
Qed.
End SegmentationTheorems.

(** ** The theorems at concrete inputs *)

(** In the training split the three example videos give two classes. *)
Lemma load_data_sets_num_classes_only_when_training_witness :
  Video.training (Video.base (Video.with_stage (Some Video.TRAINING) Examples.preprocess))
    = true
  ∧ (Video.load_data Examples.labeled_encoded_video_dataset Examples._labeled_videos
       (Video.with_stage (Some Video.TRAINING) Examples.preprocess) "train/" ∅).1
    = Ok Examples.videos
  ∧ ∃ labels,
      Video.labels_of (Examples._labeled_videos Examples.videos) = Ok labels
      ∧ (Video.load_data Examples.labeled_encoded_video_dataset Examples._labeled_videos
           (Video.with_stage (Some Video.TRAINING) Examples.preprocess) "train/" ∅).2
        = <["num_classes" := VInt (Z.of_nat (size (list_to_set labels : gset Z)))]> ∅.
Proof.
  split; [reflexivity |]. split; [reflexivity |].
  apply (load_data_sets_num_classes_only_when_training
           Examples.labeled_encoded_video_dataset Examples._labeled_videos
           (Video.with_stage (Some Video.TRAINING) Examples.preprocess) "train/" ∅);
    reflexivity.
Defined.

(** The third example video, in batches of two. *)
Lemma hooks_run_in_the_fixed_order_witness :
  ∃ tr out dataset',
    Video.run_split Examples.as_callable Examples.labeled_encoded_video_dataset
      Examples._labeled_videos Examples.clips Examples.collate
      Examples.preprocess Video.TRAINING "train/" ∅ 2 = (Ok (tr, out), dataset')
    ∧ (∃ e, e ∈ tr ∧ Video.touches 2 e)
    ∧ map Video.ev_hook (filter (Video.touches 2) tr) = Video.hook_order.
Proof.
  eexists _, _, _. split; [vm_compute; reflexivity |].
  match goal with
  | |- (∃ e, e ∈ ?tr ∧ _) ∧ _ =>
      assert (∃ e : Video.event nat, e ∈ tr ∧ Video.touches 2 e) as Htouched
  end.
  { exists (Video.load_data_, [0; 1; 2], None). split; [left |].
    unfold Video.touches. simpl. do 2 right. left. }
  split; [exact Htouched |].
  destruct (hooks_run_in_the_fixed_order Examples.as_callable
              Examples.labeled_encoded_video_dataset Examples._labeled_videos
              Examples.clips Examples.collate Examples.preprocess Video.TRAINING
              "train/" ∅ 2 _ _ _ 2 ltac:(vm_compute; reflexivity) Htouched)
    as (ds & s & b & _ & _ & _ & _ & _ & _ & Horder & _).
  exact Horder.
Defined.

(** [from_paths("train/")] returns after its three calls. *)
Lemma from_paths_delegates_to_from_load_data_inputs_witness :
  ∃ log dm,
    VideoClassificationData.from_paths true Examples.make_clip_sampler
      Examples.VideoClassificationData_class
      (Examples.from_paths_arguments (VideoClassificationData.ClipSamplerName "random"))
    = (log, Return dm)
    ∧ length log = 3
    ∧ DataModuleBase.batch_size dm = 4%Z
    ∧ DataModuleBase.train_load_data_input dm = Some "train/".
Proof.
  eexists _, _. split; [reflexivity |].
  destruct (from_paths_delegates_to_from_load_data_inputs true Examples.make_clip_sampler
              Examples.VideoClassificationData_class
              (Examples.from_paths_arguments (VideoClassificationData.ClipSamplerName "random"))
              _ _ eq_refl)
    as (sampler & p & inputs & _ & _ & Htrain & _ & _ & _ & Hbatch & _ & _ & _ & Hdm & Hlog).
  repeat split; reflexivity.
Defined.

(** [from_paths("train/")] asks for iterable datasets, and [load_data] in
    the validation split returns the dataset of the training folder. *)
Lemma from_paths_asks_for_iterable_datasets_witness :
  ∃ log dm,
    VideoClassificationData.from_paths true Examples.make_clip_sampler
      Examples.VideoClassificationData_class
      (Examples.from_paths_arguments (VideoClassificationData.ClipSamplerName "random"))
    = (log, Return dm)
    ∧ (∀ inputs,
         VideoClassificationData.from_load_data_inputs_call inputs ∈ log ->
         DataModuleBase.use_iterable_auto_dataset inputs = true)
    ∧ Some Video.VALIDATING ≠ Some Video.TRAINING
    ∧ (Video.load_data Examples.labeled_encoded_video_dataset Examples._labeled_videos
         (Video.with_stage (Some Video.VALIDATING) Examples.preprocess) "train/" ∅).1
      = Examples.labeled_encoded_video_dataset "train/" "random" "RandomSampler" true "pyav".
Proof.
  eexists _, _. split; [reflexivity |].
  pose proof (from_paths_asks_for_iterable_datasets true Examples.make_clip_sampler
                Examples.labeled_encoded_video_dataset Examples._labeled_videos
                Examples.VideoClassificationData_class
                (Examples.from_paths_arguments (VideoClassificationData.ClipSamplerName "random"))
                "random" "RandomSampler" true "pyav" None None None None
                (Some Video.VALIDATING) "train/" ∅) as [Hpaths [_ Hload]].
  split; [exact (proj2 (Hpaths _ _ eq_refl)) |].
  split; [discriminate |].
  apply Hload. discriminate.
Defined.

(** [clip_sampler=None] with pytorchvideo, and any call without it. *)
Lemma from_paths_rejects_a_missing_clip_sampler_witness :
  VideoClassificationData.from_paths true Examples.make_clip_sampler
    Examples.VideoClassificationData_class
    (Examples.from_paths_arguments VideoClassificationData.ClipSamplerNone)
  = ([], Raise (MisconfigurationException
      "clip_sampler should be provided as a string or ``pytorchvideo.data.clip_sampling.ClipSampler``"))
  ∧ (VideoClassificationData.from_paths true Examples.make_clip_sampler
       Examples.VideoClassificationData_class
       (Examples.from_paths_arguments VideoClassificationData.ClipSamplerNone)).1 = []
  ∧ VideoClassificationData.from_paths false Examples.make_clip_sampler
      Examples.VideoClassificationData_class
      (Examples.from_paths_arguments (VideoClassificationData.ClipSamplerName "random"))
    = ([], Raise (ModuleNotFoundError "Please, run `pip install pytorchvideo`."))
  ∧ (∃ callee,
       (VideoClassificationData.from_paths true Examples.make_clip_sampler
          Examples.VideoClassificationData_class
          (VideoClassificationData.with_preprocess_cls
             (Some Examples.raising_preprocess_class)
             (Examples.from_paths_arguments
                (VideoClassificationData.ClipSamplerName "random")))).2
       = Propagate callee (MisconfigurationException "transforms are misconfigured")).
Proof.
  split; [reflexivity |].
  split.
  { apply (from_paths_rejects_a_missing_clip_sampler true Examples.make_clip_sampler
             Examples.VideoClassificationData_class
             (Examples.from_paths_arguments VideoClassificationData.ClipSamplerNone));
      reflexivity. }
  split.
  { apply (from_paths_rejects_a_missing_clip_sampler false Examples.make_clip_sampler
             Examples.VideoClassificationData_class
             (Examples.from_paths_arguments (VideoClassificationData.ClipSamplerName "random")));
      reflexivity. }
  destruct (from_paths_rejects_a_missing_clip_sampler true Examples.make_clip_sampler
              Examples.VideoClassificationData_class
              (VideoClassificationData.with_preprocess_cls
                 (Some Examples.raising_preprocess_class)
                 (Examples.from_paths_arguments
                    (VideoClassificationData.ClipSamplerName "random"))))
    as (_ & _ & _ & Hpassed & _).
  exact (Hpassed eq_refl eq_refl _ eq_refl).
Defined.

(** C9, as stated, fails for a preprocess class that raises
    [MisconfigurationException]: [clip_sampler="random"] is true, and yet
    the call ends with that exception, passed on from the class. *)
Lemma from_paths_passes_on_a_callee_misconfiguration :
  VideoClassificationData.clip_sampler_truthy
    (VideoClassificationData.clip_sampler
       (VideoClassificationData.with_preprocess_cls
          (Some Examples.raising_preprocess_class)
          (Examples.from_paths_arguments
             (VideoClassificationData.ClipSamplerName "random")))) = true
  ∧ VideoClassificationData.from_paths true Examples.make_clip_sampler
      Examples.VideoClassificationData_class
      (VideoClassificationData.with_preprocess_cls
         (Some Examples.raising_preprocess_class)
         (Examples.from_paths_arguments
            (VideoClassificationData.ClipSamplerName "random")))
    = ([ VideoClassificationData.make_clip_sampler_call
           (VideoClassificationData.ClipSamplerName "random") (2%Z, 0%Z) ∅;
         VideoClassificationData.preprocess_cls_call
           (VideoClassificationData.init_args
              (Examples.from_paths_arguments
                 (VideoClassificationData.ClipSamplerName "random")) "random") ],
       Propagate "preprocess_cls"
         (MisconfigurationException "transforms are misconfigured"))
  ∧ ¬ (∀ a,
         (∃ msg,
            exception_of
              (VideoClassificationData.from_paths true Examples.make_clip_sampler
                 Examples.VideoClassificationData_class a).2
            = Some (MisconfigurationException msg))
         ↔ VideoClassificationData.clip_sampler_truthy
             (VideoClassificationData.clip_sampler a) = false).
Proof.
  split; [reflexivity |]. split; [reflexivity |].
  intros Hclaim.
  destruct (Hclaim (VideoClassificationData.with_preprocess_cls
                      (Some Examples.raising_preprocess_class)
                      (Examples.from_paths_arguments
                         (VideoClassificationData.ClipSamplerName "random"))))
    as [Honly_if _].
  assert (true = false) as Habsurd; [| discriminate Habsurd].
  apply Honly_if. by exists "transforms are misconfigured".
Qed.

(** [SemanticSegmentation(num_classes=2)] with resnet18 registered. *)
Lemma registered_backbone_is_not_used_witness :
  Examples.backbones !! "resnet18"
    = Some (fun (pretrained : bool) (kwargs : gmap string value) => ("resnet18", 512%Z))
  ∧ SemanticSegmentation.registered_backbone Examples.backbones
      Examples.segmentation_arguments = Some "resnet18"
  ∧ SemanticSegmentation.backbone
      (SemanticSegmentation.__init__ Examples.module_truthy Examples.Conv2d
         Examples.segmentation_arguments) = None
  ∧ SemanticSegmentation.forward Examples.call_module
      (SemanticSegmentation.__init__ Examples.module_truthy Examples.Conv2d
         Examples.segmentation_arguments) ["image"]
    = Err (TypeError "'NoneType' object is not callable")
  ∧ SemanticSegmentation.head_of_backbone Examples.call_module "resnet18" "Conv2d" ["image"]
    = Ok ["Conv2d"; "resnet18"; "image"].
Proof.
  split; [reflexivity |].
  destruct (registered_backbone_is_not_used Examples.call_module Examples.module_truthy
              Examples.Conv2d Examples.backbones Examples.segmentation_arguments
              "resnet18" (fun _ _ => ("resnet18", 512%Z)) ["image"] eq_refl eq_refl)
    as (Hwanted & Hnone & _ & Hforward & _).
  split; [exact Hwanted |]. split; [exact Hnone |]. split; [exact Hforward |].
  reflexivity.
Defined.

(** [SemanticSegmentation(num_classes=2)] gets the three defaults. *)
Lemma init_wires_in_the_defaults_witness :
  SemanticSegmentation.metrics
    (SemanticSegmentation.task
       (SemanticSegmentation.__init__ Examples.module_truthy Examples.Conv2d
          Examples.segmentation_arguments))
  = SemanticSegmentation.Accuracy false
  ∧ SemanticSegmentation.loss_fn
      (SemanticSegmentation.task
         (SemanticSegmentation.__init__ Examples.module_truthy Examples.Conv2d
            Examples.segmentation_arguments))
    = SemanticSegmentation.F_cross_entropy
  ∧ SemanticSegmentation.serializer
      (SemanticSegmentation.task
         (SemanticSegmentation.__init__ Examples.module_truthy Examples.Conv2d
            Examples.segmentation_arguments))
    = SemanticSegmentation.Classes false.
Proof.
  destruct (init_wires_in_the_defaults Examples.module_truthy Examples.Conv2d
              Examples.segmentation_arguments) as (Hm & Hl & Hs).
  split; [exact (Hm eq_refl) |]. split; [exact (Hl eq_refl) | exact (Hs eq_refl)].
Defined.

(** * Further properties *)

(** ** [from_paths]: keyword arguments, callee failures, defaults *)

Section FromPathsFurther.
Import VideoClassificationData.
Context {Sample ClipSampler VideoSampler float Preprocess DataModule : Type}.
Variable available : bool.
Variable make_clip_sampler :
  @clip_sampler_arg ClipSampler -> float -> gmap string value -> result ClipSampler.

Abbreviation class := (@data_module_class Sample ClipSampler VideoSampler Preprocess DataModule).
Abbreviation args :=
  (@arguments Sample ClipSampler VideoSampler float Preprocess).
Abbreviation run := (from_paths available make_clip_sampler).

Abbreviation sampler_call a :=
  (@make_clip_sampler_call Sample ClipSampler VideoSampler float Preprocess
     (clip_sampler a) (clip_duration a) (sampler_kwargs a)).
Abbreviation class_call a sampler :=
  (@preprocess_cls_call Sample ClipSampler VideoSampler float Preprocess
     (init_args a sampler)).
Abbreviation inputs_call a p :=
  (@from_load_data_inputs_call Sample ClipSampler VideoSampler float Preprocess
     (inputs_of a p)).

(** [from_paths] once the two checks have passed, callee by callee. *)
Lemma from_paths_past_the_checks (cls : class) (a : args) :
  available = true ->
  clip_sampler_truthy (clip_sampler a) = true ->
  run cls a =
  match make_clip_sampler (clip_sampler a) (clip_duration a) (sampler_kwargs a) with
  | Err e => ([sampler_call a], Propagate "make_clip_sampler" e)
  | Ok sampler =>
      match default (preprocess_cls cls) (preprocess_cls_arg a) (init_args a sampler) with
      | Err e => ([sampler_call a; class_call a sampler], Propagate "preprocess_cls" e)
      | Ok p =>
          match repeated_keyword DataModuleBase.explicit_keywords (kwargs a) with
          | Some k => ([sampler_call a; class_call a sampler], Raise (TypeError k))
          | None =>
              match from_load_data_inputs cls (inputs_of a p) with
              | Err e => ([sampler_call a; class_call a sampler; inputs_call a p],
                          Propagate "from_load_data_inputs" e)
              | Ok dm => ([sampler_call a; class_call a sampler; inputs_call a p],
                          Return dm)
              end
          end
      end
  end.
Proof.
  intros Hav Hc. unfold from_paths. rewrite kwargs_normalised, Hav, Hc. cbn [negb].
  unfold instantiate_preprocess, call, bind, ret, raise.
  destruct (make_clip_sampler _ _ _) as [sampler | e]; [| done].
  fold (init_args a sampler).
  destruct (default (preprocess_cls cls) (preprocess_cls_arg a) (init_args a sampler))
    as [p | e]; [| done].
  fold (inputs_of a p).
  destruct (repeated_keyword _ _); [done |].
  by destruct (from_load_data_inputs cls (inputs_of a p)).
Qed.

Lemma repeated_keyword_found (explicit : list string) (kw : gmap string value) k :
  k ∈ explicit -> is_Some (kw !! k) ->
  ∃ k', repeated_keyword explicit kw = Some k' ∧ k' ∈ explicit ∧ is_Some (kw !! k').
Proof.
  intros Hin Hk. unfold repeated_keyword.
  destruct (List.find _ explicit) as [k' |] eqn:Hfind.
  - apply List.find_some in Hfind as [Hin' Hk'].
    exists k'. split; [done |]. split; [by apply list_elem_of_In |].
    by apply bool_decide_eq_true in Hk'.
  - apply list_elem_of_In in Hin.
    pose proof (List.find_none _ _ Hfind k Hin) as Hno. simpl in Hno.
    apply bool_decide_eq_false in Hno. done.
Qed.

(** A keyword of the call on lines 206-216 that also comes in through
    [**kwargs] stops [from_paths] with a [TypeError]:
    [from_load_data_inputs] is never called and no data module is
    returned, although the clip sampler and the preprocess have been
    built by then. *)
Theorem from_paths_repeated_keyword_is_a_type_error (cls : class) (a : args) k :
  k ∈ DataModuleBase.explicit_keywords -> is_Some (kwargs a !! k) ->
  (∀ inputs, from_load_data_inputs_call inputs ∉ (run cls a).1)
  ∧ (∀ dm, (run cls a).2 ≠ Return dm)
  ∧ (∀ sampler p,
       available = true -> clip_sampler_truthy (clip_sampler a) = true ->
       make_clip_sampler (clip_sampler a) (clip_duration a) (sampler_kwargs a) = Ok sampler ->
       default (preprocess_cls cls) (preprocess_cls_arg a) (init_args a sampler) = Ok p ->
       ∃ k', k' ∈ DataModuleBase.explicit_keywords ∧ is_Some (kwargs a !! k')
             ∧ run cls a = ([sampler_call a; class_call a sampler], Raise (TypeError k'))).
Proof.
  intros Hin Hk.
  destruct (repeated_keyword_found _ _ _ Hin Hk) as (k' & Hfind & Hin' & Hk').
  assert (∃ log o, run cls a = (log, o)
                   ∧ (∀ inputs, from_load_data_inputs_call inputs ∉ log)
                   ∧ (∀ dm, o ≠ Return dm)) as (log & o & Hrun & Hlog & Ho).
  { assert (available = true ∨ available = false) as [Hav | Hav]
      by (destruct available; auto).
    - destruct (clip_sampler_truthy (clip_sampler a)) eqn:Hc.
      + rewrite (from_paths_past_the_checks cls a Hav Hc), Hfind.
        destruct (make_clip_sampler _ _ _) as [sampler | e];
          [destruct (default (preprocess_cls cls) (preprocess_cls_arg a)
                       (init_args a sampler)) as [p | e] |];
          (eexists _, _; split; [reflexivity |]; split; [| done]);
          intros inputs Hmem; repeat (apply elem_of_cons in Hmem as [Heq | Hmem]);
          try discriminate Heq; by apply elem_of_nil in Hmem.
      + unfold from_paths. rewrite Hav, Hc. simpl.
        eexists _, _; split; [reflexivity |]; split; [| done].
        intros inputs. apply not_elem_of_nil.
    - unfold from_paths. rewrite Hav. simpl.
      eexists _, _; split; [reflexivity |]; split; [| done].
      intros inputs. apply not_elem_of_nil. }
  split; [by rewrite Hrun |]. split; [by rewrite Hrun |].
  intros sampler p Hav Hc Hs Hp.
  exists k'. split; [done |]. split; [done |].
  by rewrite (from_paths_past_the_checks cls a Hav Hc), Hs, Hp, Hfind.
Qed.

(** An exception in a callee leaves [from_paths] as it is, and no later
    callee is called: after a failing [make_clip_sampler] no preprocess is
    instantiated, and after a failing preprocess class
    [from_load_data_inputs] is not called. *)
Theorem from_paths_stops_at_the_first_failing_callee (cls : class) (a : args) log callee e :
  run cls a = (log, Propagate callee e) ->
  (callee = "make_clip_sampler"
   ∧ make_clip_sampler (clip_sampler a) (clip_duration a) (sampler_kwargs a) = Err e
   ∧ log = [sampler_call a])
  ∨ (∃ sampler,
       callee = "preprocess_cls"
       ∧ make_clip_sampler (clip_sampler a) (clip_duration a) (sampler_kwargs a) = Ok sampler
       ∧ default (preprocess_cls cls) (preprocess_cls_arg a) (init_args a sampler) = Err e
       ∧ log = [sampler_call a; class_call a sampler])
  ∨ (∃ sampler p,
       callee = "from_load_data_inputs"
       ∧ make_clip_sampler (clip_sampler a) (clip_duration a) (sampler_kwargs a) = Ok sampler
       ∧ default (preprocess_cls cls) (preprocess_cls_arg a) (init_args a sampler) = Ok p
       ∧ from_load_data_inputs cls (inputs_of a p) = Err e
       ∧ log = [sampler_call a; class_call a sampler; inputs_call a p]).
Proof.
  assert (available = true ∨ available = false) as [Hav | Hav]
    by (destruct available; auto);
    [| unfold from_paths; rewrite Hav; discriminate].
  destruct (clip_sampler_truthy (clip_sampler a)) eqn:Hc;
    [| unfold from_paths; rewrite Hav, Hc; discriminate].
  rewrite (from_paths_past_the_checks cls a Hav Hc).
  destruct (make_clip_sampler _ _ _) as [sampler | e1] eqn:Hs.
  - destruct (default (preprocess_cls cls) (preprocess_cls_arg a) (init_args a sampler))
      as [p | e2] eqn:Hp.
    + destruct (repeated_keyword _ _); [discriminate |].
      destruct (from_load_data_inputs cls (inputs_of a p)) as [dm | e3] eqn:Hd;
        [discriminate |].
      intros [= <- <- <-]. right. right. by exists sampler, p.
    + intros [= <- <- <-]. right. left. by exists sampler.
  - intros [= <- <- <-]. by left.
Qed.

(** [clip_sampler_kwargs=None] and [clip_sampler_kwargs={}] are the same
    call, and either way [make_clip_sampler] gets no keyword arguments. *)
Theorem from_paths_no_sampler_kwargs (cls : class) (a : args) :
  run cls (with_clip_sampler_kwargs None a) = run cls (with_clip_sampler_kwargs (Some ∅) a)
  ∧ (∀ sampler duration kw,
       make_clip_sampler_call sampler duration kw
         ∈ (run cls (with_clip_sampler_kwargs None a)).1 ->
       kw = ∅).
Proof.
  split; [reflexivity |].
  intros sampler duration kw.
  assert (available = true ∨ available = false) as [Hav | Hav]
    by (destruct available; auto);
    [| unfold from_paths; rewrite Hav; simpl; by intros ?%elem_of_nil].
  destruct (clip_sampler_truthy (clip_sampler a)) eqn:Hc.
  - rewrite (from_paths_past_the_checks cls (with_clip_sampler_kwargs None a) Hav Hc).
    change (sampler_kwargs (with_clip_sampler_kwargs None a)) with (∅ : gmap string value).
    destruct (make_clip_sampler _ _ _) as [s | e1];
      [destruct (default _ _) as [p | e2];
         [destruct (repeated_keyword _ _);
            [| destruct (from_load_data_inputs cls _)] |] |];
      simpl; intros Hmem; repeat (apply elem_of_cons in Hmem as [Heq | Hmem]);
      try discriminate Heq; try (by injection Heq); by apply elem_of_nil in Hmem.
  - unfold from_paths. rewrite Hav. simpl. rewrite Hc. simpl. by intros ?%elem_of_nil.
Qed.

(** Leaving [preprocess_cls] out is the same call as passing the class's
    own [preprocess_cls]; and when a [preprocess_cls] is passed, the
    class's own one plays no part. *)
Theorem from_paths_preprocess_cls_default (cls : class) (a : args) :
  run cls (with_preprocess_cls None a)
  = run cls (with_preprocess_cls (Some (preprocess_cls cls)) a)
  ∧ (∀ (c own : preprocess_class),
       run cls (with_preprocess_cls (Some c) a)
       = run {| preprocess_cls := own;
                from_load_data_inputs := from_load_data_inputs cls |}
           (with_preprocess_cls (Some c) a)).
Proof. split; reflexivity. Qed.
End FromPathsFurther.

(** ** [from_paths] and [load_data] together *)

Section FromPathsThenLoadData.
Context {Sample ClipSampler VideoSampler float Data EncodedVideoDataset DataModule : Type}.
Variable available : bool.
Variable make_clip_sampler :
  @VideoClassificationData.clip_sampler_arg ClipSampler ->
  float -> gmap string value -> result ClipSampler.
Variable labeled_encoded_video_dataset :
  Data -> ClipSampler -> VideoSampler -> bool -> string -> result EncodedVideoDataset.
Variable _labeled_videos : EncodedVideoDataset -> list (string * gmap string Z).
Variable inherited :
  DataModuleBase.load_data_inputs
    (@Video.VideoClassificationPreprocess Sample ClipSampler VideoSampler)
  -> result DataModule.

(** With the class's own [preprocess_cls], the preprocess that a
    returning [from_paths] hands to [from_load_data_inputs] holds the four
    transform dictionaries of the call, and its [load_data] asks
    [labeled_encoded_video_dataset] for the folder with the sampler
    [make_clip_sampler] returned (not the [clip_sampler] argument) and the
    [video_sampler], [decode_audio] and [decoder] of the call. *)
Theorem from_paths_preprocess_loads_with_the_call_settings
    (a : @VideoClassificationData.arguments Sample ClipSampler VideoSampler float
           (@Video.VideoClassificationPreprocess Sample ClipSampler VideoSampler))
    log dm :
  VideoClassificationData.preprocess_cls_arg a = None ->
  VideoClassificationData.from_paths available make_clip_sampler
    (VideoClassificationData.VideoClassificationData_class inherited) a = (log, Return dm) ->
  ∃ sampler p,
    make_clip_sampler (VideoClassificationData.clip_sampler a)
      (VideoClassificationData.clip_duration a)
      (VideoClassificationData.sampler_kwargs a) = Ok sampler
    ∧ VideoClassificationData.from_load_data_inputs_call
        (VideoClassificationData.inputs_of a p) ∈ log
    ∧ inherited (VideoClassificationData.inputs_of a p) = Ok dm
    ∧ (∀ stage,
         Video.transform_of (Video.base p) stage
         = match stage with
           | Video.TRAINING => VideoClassificationData.train_transform a
           | Video.VALIDATING => VideoClassificationData.val_transform a
           | Video.TESTING => VideoClassificationData.test_transform a
           | Video.PREDICTING => VideoClassificationData.predict_transform a
           end)
    ∧ (∀ stage data dataset ds,
         (Video.load_data labeled_encoded_video_dataset _labeled_videos
            (Video.with_stage stage p) data dataset).1 = Ok ds ->
         labeled_encoded_video_dataset data sampler
           (VideoClassificationData.video_sampler a)
           (VideoClassificationData.decode_audio a)
           (VideoClassificationData.decoder a) = Ok ds).
Proof.
  intros Hcls (sampler & p & Hs & Hp & Hd & ->)%from_paths_returns.
  rewrite Hcls in Hp. simpl in Hp. injection Hp as <-.
  exists sampler. eexists. split; [exact Hs |].
  split; [do 2 right; left |]. split; [exact Hd |]. split.
  - intros stage. by destruct stage.
  - intros stage data dataset ds. unfold Video.load_data. simpl.
    destruct (labeled_encoded_video_dataset _ _ _ _ _) as [ds' | e]; [| discriminate].
    destruct (Video.training _); [| by intros [= ->]].
    destruct (Video.labels_of _); [by intros [= ->] | discriminate].
Qed.
End FromPathsThenLoadData.

(** ** [load_data]: the value of [num_classes], failures, repeated calls *)

Section LoadDataFurther.
Import Video.
Context {Sample ClipSampler VideoSampler Data EncodedVideoDataset : Type}.
Variable labeled_encoded_video_dataset :
  Data -> ClipSampler -> VideoSampler -> bool -> string -> result EncodedVideoDataset.
Variable _labeled_videos : EncodedVideoDataset -> list (string * gmap string Z).

Abbreviation preprocess := (@VideoClassificationPreprocess Sample ClipSampler VideoSampler).
Abbreviation load := (load_data labeled_encoded_video_dataset _labeled_videos).
Abbreviation built self data :=
  (labeled_encoded_video_dataset data (clip_sampler self) (video_sampler self)
     (decode_audio self) (decoder self)).

Lemma labels_of_length videos labels :
  labels_of videos = Ok labels -> length labels = length videos.
Proof.
  revert labels. induction videos as [| v videos IH]; intros labels; simpl.
  - by intros [= <-].
  - destruct (v.2 !! "label"); [| discriminate].
    destruct (labels_of videos) as [ls |]; [| discriminate].
    intros [= <-]. simpl. f_equal. by apply IH.
Qed.

Lemma labels_of_elem videos labels l :
  labels_of videos = Ok labels ->
  l ∈ labels ↔ ∃ v, v ∈ videos ∧ v.2 !! "label" = Some l.
Proof.
  revert labels. induction videos as [| v videos IH]; intros labels; simpl.
  - intros [= <-]. split; [by intros ?%elem_of_nil |].
    by intros (v & ?%elem_of_nil & _).
  - destruct (v.2 !! "label") as [l0 |] eqn:Hv; [| discriminate].
    destruct (labels_of videos) as [ls |]; [| discriminate].
    intros [= <-]. specialize (IH ls eq_refl). rewrite elem_of_cons, IH. split.
    + intros [-> | (v' & Hin & Hl)].
      * exists v. split; [left | done].
      * exists v'. split; [by right | done].
    + intros (v' & [-> | Hin]%elem_of_cons & Hl).
      * left. congruence.
      * right. by exists v'.
Qed.

Lemma labels_of_missing videos :
  (∃ v, v ∈ videos ∧ v.2 !! "label" = None) ->
  labels_of videos = Err (KeyError "label").
Proof.
  induction videos as [| v videos IH]; simpl.
  - by intros (v & ?%elem_of_nil & _).
  - intros (v' & [-> | Hin]%elem_of_cons & Hl).
    + by rewrite Hl.
    + destruct (v.2 !! "label"); [| done]. rewrite IH; [done |]. by exists v'.
Qed.

Lemma remove_dups_length_le (l : list Z) : length (remove_dups l) ≤ length l.
Proof.
  induction l as [| x l IH]; simpl; [done |].
  destruct (decide_rel _ x l); simpl; lia.
Qed.

Lemma remove_dups_empty (l : list Z) : remove_dups l = [] -> l = [].
Proof.
  destruct l as [| x l]; [done |]. intros Hnil.
  assert (x ∈ remove_dups (x :: l)) as Hin by (apply elem_of_remove_dups; left).
  rewrite Hnil in Hin. by apply elem_of_nil in Hin.
Qed.

(** [load_data] in the training split, when it returns. *)
Lemma load_data_training_returns (self : preprocess) data dataset ds dataset' :
  training (base self) = true ->
  load self data dataset = (Ok ds, dataset') ->
  ∃ labels,
    built self data = Ok ds
    ∧ labels_of (_labeled_videos ds) = Ok labels
    ∧ dataset' = <["num_classes" := VInt (len_unique labels)]> dataset.
Proof.
  intros Hmode. unfold load_data. rewrite Hmode.
  destruct (labeled_encoded_video_dataset _ _ _ _ _) as [ds' | e]; [| discriminate].
  destruct (labels_of (_labeled_videos ds')) as [labels | e] eqn:El; [| discriminate].
  intros [= <- <-]. by exists labels.
Qed.

(** The [num_classes] that [load_data] sets in the training split lies
    between zero and the number of labeled videos, and it is zero only for
    a dataset without videos. *)
Theorem num_classes_is_at_most_the_number_of_videos
    (self : preprocess) data dataset ds dataset' :
  training (base self) = true ->
  load self data dataset = (Ok ds, dataset') ->
  ∃ n, dataset' !! "num_classes" = Some (VInt n)
       ∧ (0 ≤ n ≤ Z.of_nat (length (_labeled_videos ds)))%Z
       ∧ (n = 0%Z ↔ _labeled_videos ds = []).
Proof.
  intros Hmode (labels & _ & Hl & ->)%load_data_training_returns; [| done].
  exists (len_unique labels). split; [apply lookup_insert_eq |].
  pose proof (labels_of_length _ _ Hl) as Hlen.
  pose proof (remove_dups_length_le labels) as Hle.
  unfold len_unique. split; [lia |]. split.
  - intros Hz. assert (remove_dups labels = []) as Hnil
      by (apply length_zero_iff_nil; lia).
    apply remove_dups_empty in Hnil. subst labels.
    apply length_zero_iff_nil. by rewrite <- Hlen.
  - intros Hnil. rewrite Hnil in Hlen. destruct labels; [done | discriminate].
Qed.

(** The [num_classes] that [load_data] sets depends only on which labels
    occur among the videos: two training loads whose videos carry the same
    labels, in whatever order and number, set the same [num_classes]. *)
Theorem num_classes_depends_only_on_the_labels
    (self1 self2 : preprocess) data1 data2 dataset1 dataset2 ds1 ds2 dataset1' dataset2' :
  training (base self1) = true ->
  training (base self2) = true ->
  load self1 data1 dataset1 = (Ok ds1, dataset1') ->
  load self2 data2 dataset2 = (Ok ds2, dataset2') ->
  (∀ l, (∃ v, v ∈ _labeled_videos ds1 ∧ v.2 !! "label" = Some l)
        ↔ (∃ v, v ∈ _labeled_videos ds2 ∧ v.2 !! "label" = Some l)) ->
  dataset1' !! "num_classes" = dataset2' !! "num_classes".
Proof.
  intros Hm1 Hm2 (ls1 & _ & Hl1 & ->)%load_data_training_returns
         (ls2 & _ & Hl2 & ->)%load_data_training_returns Hsame; [| done | done].
  rewrite !lookup_insert_eq, !len_unique_distinct.
  assert ((list_to_set ls1 : gset Z) = list_to_set ls2) as ->; [| done].
  apply set_eq. intros l. rewrite !elem_of_list_to_set.
  by rewrite (labels_of_elem _ _ l Hl1), (labels_of_elem _ _ l Hl2).
Qed.

(** Failures of [load_data].  An exception of
    [labeled_encoded_video_dataset] comes out of [load_data] in every
    split.  A video without a ['label'] entry makes the training split
    raise [KeyError]; the other splits never read the labels and return
    the dataset.  In none of these cases is the [dataset] argument
    changed. *)
Theorem load_data_failures (self : preprocess) data dataset :
  (∀ e, built self data = Err e -> load self data dataset = (Err e, dataset))
  ∧ (∀ ds, built self data = Ok ds ->
       training (base self) = true ->
       (∃ v, v ∈ _labeled_videos ds ∧ v.2 !! "label" = None) ->
       load self data dataset = (Err (KeyError "label"), dataset))
  ∧ (∀ ds, built self data = Ok ds ->
       training (base self) = false ->
       load self data dataset = (Ok ds, dataset)).
Proof.
  unfold load_data. repeat split.
  - by intros e ->.
  - intros ds -> -> Hmissing. by rewrite (labels_of_missing _ Hmissing).
  - by intros ds -> ->.
Qed.

(** In the training split a returning [load_data] overwrites whatever
    [num_classes] the dataset had with the number of distinct labels, and
    keeps every other attribute: the attributes it leaves are those of the
    dataset without [num_classes], plus the new count. *)
Theorem load_data_overwrites_num_classes (self : preprocess) data dataset ds dataset' :
  training (base self) = true ->
  load self data dataset = (Ok ds, dataset') ->
  ∃ labels,
    labels_of (_labeled_videos ds) = Ok labels
    ∧ dataset' = <["num_classes" := VInt (len_unique labels)]>
                   (delete "num_classes" dataset)
    ∧ dataset' !! "num_classes" = Some (VInt (len_unique labels))
    ∧ (∀ k, k ≠ "num_classes" -> dataset' !! k = dataset !! k)
    ∧ (∀ stale rest, dataset = <["num_classes" := stale]> rest ->
         dataset' = <["num_classes" := VInt (len_unique labels)]> rest).
Proof.
  intros Hmode (labels & _ & Hl & ->)%load_data_training_returns; [| done].
  exists labels. split; [done |]. split; [by rewrite insert_delete_eq |].
  split; [apply lookup_insert_eq |]. split.
  - intros k Hk. by rewrite lookup_insert_ne.
  - intros stale rest ->. by rewrite insert_insert_eq.
Qed.
End LoadDataFurther.

(** ** [SemanticSegmentation.__init__]: the head, false values, a backbone
       given as a pair *)

Section SegmentationFurther.
Import SemanticSegmentation.
Context {Tensor Module_ float Optimizer UserMetrics UserLoss UserSerializer : Type}.
Variable call_module : Module_ -> Tensor -> result Tensor.
Variable module_truthy : Module_ -> bool.
Variable Conv2d : Z -> Z -> Z -> Module_.

Abbreviation args :=
  (@arguments Module_ float Optimizer UserMetrics UserLoss UserSerializer).

(** The head is built for one input feature, whatever backbone is asked
    for: without a [head] argument it is
    [Conv2d(1, num_classes, kernel_size=1)], a head function is called with
    [(1, num_classes)], and two calls that differ only in [backbone],
    [backbone_kwargs] and [pretrained] get the same head. *)
Theorem head_is_built_for_one_feature (a : args) :
  (head_ a = None ->
   head (__init__ module_truthy Conv2d a) = Conv2d 1 (num_classes a) 1)
  ∧ (∀ f, head_ a = Some (head_function f) ->
          module_truthy (f 1%Z (num_classes a)) = true ->
          head (__init__ module_truthy Conv2d a) = f 1%Z (num_classes a))
  ∧ (∀ a' : args, head_ a' = head_ a -> num_classes a' = num_classes a ->
          head (__init__ module_truthy Conv2d a') = head (__init__ module_truthy Conv2d a)).
Proof.
  repeat split.
  - intros H. simpl. by rewrite H.
  - intros f H Ht. simpl. by rewrite H, Ht.
  - intros a' Hh Hn. simpl. by rewrite Hh, Hn.
Qed.

(** A [head] or [serializer] that is false as a truth value is replaced by
    the default without notice: a head module such as an empty container
    gives way to the default convolution, and an empty serializer mapping
    to [Classes(multi_label=multi_label)].  [metrics] and [loss_fn] are
    tested against [None] only, so whatever else is passed is kept. *)
Theorem false_values_are_replaced_by_the_defaults (a : args) :
  (∀ m, head_ a = Some (head_module m) -> module_truthy m = false ->
        head (__init__ module_truthy Conv2d a) = Conv2d 1 (num_classes a) 1)
  ∧ (∀ f, head_ a = Some (head_function f) ->
          module_truthy (f 1%Z (num_classes a)) = false ->
          head (__init__ module_truthy Conv2d a) = Conv2d 1 (num_classes a) 1)
  ∧ (serializer_ a = Some (serializer_mapping ∅) ->
     serializer (task (__init__ module_truthy Conv2d a)) = Classes (multi_label a))
  ∧ (∀ s, serializer_ a = Some s -> serializer_truthy (Some s) = true ->
          serializer (task (__init__ module_truthy Conv2d a)) = given_serializer s)
  ∧ (∀ m, metrics_ a = Some m ->
          metrics (task (__init__ module_truthy Conv2d a)) = given_metrics m)
  ∧ (∀ l, loss_fn_ a = Some l ->
          loss_fn (task (__init__ module_truthy Conv2d a)) = given_loss l).
Proof.
  repeat split.
  - intros m H Ht. simpl. by rewrite H, Ht.
  - intros f H Ht. simpl. by rewrite H, Ht.
  - intros H. simpl. by rewrite H.
  - intros s H Ht. simpl. rewrite H. simpl in Ht. by rewrite Ht.
  - intros m H. simpl. by rewrite H.
  - intros l H. simpl. by rewrite H.
Qed.

(** A backbone passed as a [(module, num_features)] pair is dropped as
    well: the task has no backbone and no model, the head is still built
    for one feature and not for the pair's [num_features], and [forward]
    raises [TypeError] without calling the module that was passed. *)
Theorem backbone_pair_is_dropped (a : args) (m : Module_) (n : Z) (x : Tensor) :
  backbone_ a = backbone_pair m n ->
  backbone (__init__ module_truthy Conv2d a) = None
  ∧ model (task (__init__ module_truthy Conv2d a)) = None
  ∧ (head_ a = None ->
     head (__init__ module_truthy Conv2d a) = Conv2d 1 (num_classes a) 1)
  ∧ forward call_module (__init__ module_truthy Conv2d a) x
    = Err (TypeError "'NoneType' object is not callable").
Proof.
  intros Hb. repeat split.
  intros H. simpl. by rewrite H.
Qed.
End SegmentationFurther.

(** ** [flash/utils/imports.py]: what the flags hold *)

Section ImportsFurther.
Import Imports.
Variable env : environment.

(** [imports.py] loads exactly when
    [pytorch_lightning.utilities.imports] can be imported and exports
    [_module_available].  Otherwise its line 1 raises, with nothing bound:
    the exception that importing [pytorch_lightning.utilities.imports]
    raises, whatever it is, or the [ImportError] for [_module_available].
    When it loads, each of the seven flags holds what [_module_available]
    answers for its own package, and nothing is bound besides the flags
    and [_module_available]. *)
Theorem imports_py_binds_each_flag_to_its_probe :
  flag_probes imports_py =
    [("_TABNET_AVAILABLE", "pytorch_tabnet"); ("_KORNIA_AVAILABLE", "kornia");
     ("_COCO_AVAILABLE", "pycocotools"); ("_TIMM_AVAILABLE", "timm");
     ("_TORCHVISION_AVAILABLE", "torchvision"); ("_MATPLOTLIB_AVAILABLE", "matplotlib");
     ("_TRANSFORMERS_AVAILABLE", "transformers")]
  ∧ match import_imports_py env with
    | Loaded ns =>
        import_error env "pytorch_lightning.utilities.imports" = None
        ∧ provides env "pytorch_lightning.utilities.imports" "_module_available" = true
        ∧ Forall (fun '(name, probe) =>
                    ns !! name = Some (VBool (_module_available env probe)))
                 (flag_probes imports_py)
        ∧ dom ns = list_to_set (bound_names imports_py)
    | Raised line e ns =>
        line = 1 ∧ ns = ∅
        ∧ (import_error env "pytorch_lightning.utilities.imports" = Some e
           ∨ (import_error env "pytorch_lightning.utilities.imports" = None
              ∧ provides env "pytorch_lightning.utilities.imports" "_module_available"
                = false
              ∧ e = ImportError "_module_available"
                      "pytorch_lightning.utilities.imports"))
    end.
Proof.
  split; [reflexivity |].
  unfold import_imports_py, exec_leaf_module, imports_py.
  cbn [exec_body exec_stmt exec_simple_with].
  unfold load_external.
  destruct (import_error env _) as [e |]; [repeat split; auto |].
  cbn [bind_names]. unfold external_lookup.
  destruct (provides env _ _); [| repeat split; auto].
  cbn [bind_names]. split; [done |]. split; [done |]. split.
  - repeat constructor.
  - vm_compute. reflexivity.
Qed.
End ImportsFurther.

(** ** The further properties at concrete inputs *)

(** [from_paths("train/", preprocess=None)]: the keyword [preprocess] comes
    twice. *)
Lemma from_paths_repeated_keyword_is_a_type_error_witness :
  "preprocess" ∈ DataModuleBase.explicit_keywords
  ∧ (VideoClassificationData.from_paths true Examples.make_clip_sampler
       Examples.VideoClassificationData_class
       (VideoClassificationData.with_kwargs {[ "preprocess" := VNone ]}
          (Examples.from_paths_arguments
             (VideoClassificationData.ClipSamplerName "random")))).2
    = Raise (TypeError "preprocess")
  ∧ ∀ inputs,
      VideoClassificationData.from_load_data_inputs_call inputs
      ∉ (VideoClassificationData.from_paths true Examples.make_clip_sampler
           Examples.VideoClassificationData_class
           (VideoClassificationData.with_kwargs {[ "preprocess" := VNone ]}
              (Examples.from_paths_arguments
                 (VideoClassificationData.ClipSamplerName "random")))).1.
Proof.
  assert ("preprocess" ∈ DataModuleBase.explicit_keywords) as Hin
    by (apply (bool_decide_unpack _); vm_compute; exact I).
  split; [exact Hin |]. split; [reflexivity |].
  assert (is_Some
            (VideoClassificationData.kwargs
               (VideoClassificationData.with_kwargs {[ "preprocess" := VNone ]}
                  (Examples.from_paths_arguments
                     (VideoClassificationData.ClipSamplerName "random")))
             !! "preprocess")) as Hk by (exists VNone; reflexivity).
  apply (from_paths_repeated_keyword_is_a_type_error true Examples.make_clip_sampler
           Examples.VideoClassificationData_class
           (VideoClassificationData.with_kwargs {[ "preprocess" := VNone ]}
              (Examples.from_paths_arguments
                 (VideoClassificationData.ClipSamplerName "random")))
           "preprocess" Hin Hk).
Defined.

(** An unknown sampler name: [make_clip_sampler] fails and nothing else is
    called. *)
Lemma from_paths_stops_at_the_first_failing_callee_witness :
  VideoClassificationData.from_paths true Examples.strict_make_clip_sampler
    Examples.VideoClassificationData_class
    (Examples.from_paths_arguments (VideoClassificationData.ClipSamplerName "uniform"))
  = ([ VideoClassificationData.make_clip_sampler_call
         (VideoClassificationData.ClipSamplerName "uniform") (2%Z, 0%Z) ∅ ],
     Propagate "make_clip_sampler" (ExternalError "unsupported sampling type"))
  ∧ length (VideoClassificationData.from_paths true Examples.strict_make_clip_sampler
              Examples.VideoClassificationData_class
              (Examples.from_paths_arguments
                 (VideoClassificationData.ClipSamplerName "uniform"))).1 = 1.
Proof.
  split; [reflexivity |].
  destruct (from_paths_stops_at_the_first_failing_callee true
              Examples.strict_make_clip_sampler Examples.VideoClassificationData_class
              (Examples.from_paths_arguments
                 (VideoClassificationData.ClipSamplerName "uniform"))
              _ _ _ eq_refl)
    as [(_ & _ & Hlog) | [(sampler & Hcallee & _) | (sampler & p & Hcallee & _)]];
    [reflexivity | discriminate Hcallee | discriminate Hcallee].
Defined.

(** [from_paths("train/")] hands [make_clip_sampler] no keyword
    arguments. *)
Lemma from_paths_no_sampler_kwargs_witness :
  (VideoClassificationData.from_paths true Examples.make_clip_sampler
     Examples.VideoClassificationData_class
     (VideoClassificationData.with_clip_sampler_kwargs None
        (Examples.from_paths_arguments
           (VideoClassificationData.ClipSamplerName "random")))).1
    !! 0
  = Some (VideoClassificationData.make_clip_sampler_call
            (VideoClassificationData.ClipSamplerName "random") (2%Z, 0%Z) ∅)
  ∧ ∀ sampler duration kw,
      VideoClassificationData.make_clip_sampler_call sampler duration kw
        ∈ (VideoClassificationData.from_paths true Examples.make_clip_sampler
             Examples.VideoClassificationData_class
             (VideoClassificationData.with_clip_sampler_kwargs None
                (Examples.from_paths_arguments
                   (VideoClassificationData.ClipSamplerName "random")))).1 ->
      kw = ∅.
Proof.
  split; [reflexivity |].
  apply (from_paths_no_sampler_kwargs true Examples.make_clip_sampler
           Examples.VideoClassificationData_class
           (Examples.from_paths_arguments (VideoClassificationData.ClipSamplerName "random"))).
Defined.

(** [VideoClassificationData.from_paths("train/", clip_sampler=...)] and
    then [load_data] in the validation split. *)
Lemma from_paths_preprocess_loads_with_the_call_settings_witness :
  ∃ log dm sampler p,
    VideoClassificationData.from_paths true Examples.make_clip_sampler
      (VideoClassificationData.VideoClassificationData_class (fun inputs => Ok inputs))
      (Examples.from_paths_arguments (VideoClassificationData.ClipSamplerName "random"))
    = (log, Return dm)
    ∧ Examples.make_clip_sampler (VideoClassificationData.ClipSamplerName "random")
        (2%Z, 0%Z) ∅ = Ok sampler
    ∧ DataModuleBase.preprocess dm = p
    ∧ ∀ ds,
        (Video.load_data Examples.labeled_encoded_video_dataset Examples._labeled_videos
           (Video.with_stage (Some Video.VALIDATING) p) "train/" ∅).1 = Ok ds ->
        Examples.labeled_encoded_video_dataset "train/" sampler "RandomSampler" true "pyav"
        = Ok ds.
Proof.
  destruct (from_paths_preprocess_loads_with_the_call_settings true
              Examples.make_clip_sampler Examples.labeled_encoded_video_dataset
              Examples._labeled_videos (fun inputs => Ok inputs)
              (Examples.from_paths_arguments
                 (VideoClassificationData.ClipSamplerName "random"))
              _ _ eq_refl eq_refl)
    as (sampler & p & Hs & _ & Hdm & _ & Hload).
  eexists _, _, sampler, p. split; [reflexivity |]. split; [exact Hs |].
  split.
  { injection Hdm as Hdm. symmetry. exact Hdm. }
  intros ds. apply Hload.
Defined.

(** The three example videos have two classes. *)
Lemma num_classes_is_at_most_the_number_of_videos_witness :
  ∃ n,
    (Video.load_data Examples.labeled_encoded_video_dataset Examples._labeled_videos
       (Video.with_stage (Some Video.TRAINING) Examples.preprocess) "train/" ∅).2
      !! "num_classes" = Some (VInt n)
    ∧ (0 ≤ n ≤ 3)%Z.
Proof.
  destruct (num_classes_is_at_most_the_number_of_videos
              Examples.labeled_encoded_video_dataset Examples._labeled_videos
              (Video.with_stage (Some Video.TRAINING) Examples.preprocess) "train/" ∅
              _ _ eq_refl eq_refl)
    as (n & Hn & Hbound & _).
  exists n. split; [exact Hn | exact Hbound].
Defined.

(** The training folder and its copy in another order, one video twice. *)
Lemma num_classes_depends_only_on_the_labels_witness :
  (Video.load_data Examples.two_folder_dataset Examples._labeled_videos
     (Video.with_stage (Some Video.TRAINING) Examples.preprocess) "train/" ∅).2
    !! "num_classes"
  = (Video.load_data Examples.two_folder_dataset Examples._labeled_videos
       (Video.with_stage (Some Video.TRAINING) Examples.preprocess) "copy/"
       {[ "name" := VStr "copy" ]}).2
      !! "num_classes".
Proof.
  eapply (num_classes_depends_only_on_the_labels Examples.two_folder_dataset
            Examples._labeled_videos
            (Video.with_stage (Some Video.TRAINING) Examples.preprocess)
            (Video.with_stage (Some Video.TRAINING) Examples.preprocess)
            "train/" "copy/" ∅ {[ "name" := VStr "copy" ]});
    [reflexivity | reflexivity | reflexivity | reflexivity |].
  intros l. unfold Examples._labeled_videos, Examples.videos. split.
  - intros (v & Hin & Hl).
    repeat (apply elem_of_cons in Hin as [-> | Hin]);
      [exists ("copy/archery/1.mp4", {[ "label" := 0%Z ]})
      |exists ("copy/archery/1.mp4", {[ "label" := 0%Z ]})
      |exists ("copy/bowling/1.mp4", {[ "label" := 1%Z ]})
      |by apply elem_of_nil in Hin];
      (split; [| exact Hl]); repeat (first [by left | right]).
  - intros (v & Hin & Hl).
    repeat (apply elem_of_cons in Hin as [-> | Hin]);
      [exists ("train/bowling/1.mp4", {[ "label" := 1%Z ]})
      |exists ("train/archery/1.mp4", {[ "label" := 0%Z ]})
      |exists ("train/bowling/1.mp4", {[ "label" := 1%Z ]})
      |exists ("train/archery/1.mp4", {[ "label" := 0%Z ]})
      |by apply elem_of_nil in Hin];
      (split; [| exact Hl]); repeat (first [by left | right]).
Defined.

(** A video without a label: [KeyError] in the training split, a dataset
    in the predict split; and a folder that cannot be loaded. *)
Lemma load_data_failures_witness :
  Video.load_data Examples.unlabeled_video_dataset Examples._labeled_videos
    (Video.with_stage (Some Video.TRAINING) Examples.preprocess) "predict/" ∅
  = (Err (KeyError "label"), ∅)
  ∧ Video.load_data Examples.unlabeled_video_dataset Examples._labeled_videos
      (Video.with_stage (Some Video.PREDICTING) Examples.preprocess) "predict/" ∅
    = (Ok [ ("predict/1.mp4", ∅) ], ∅)
  ∧ Video.load_data Examples.labeled_encoded_video_dataset Examples._labeled_videos
      (Video.with_stage (Some Video.TRAINING) Examples.preprocess) "nowhere/" ∅
    = (Err (ExternalError "no videos found"), ∅).
Proof.
  split.
  { destruct (load_data_failures Examples.unlabeled_video_dataset
                Examples._labeled_videos
                (Video.with_stage (Some Video.TRAINING) Examples.preprocess)
                "predict/" ∅) as (_ & Hmissing & _).
    apply (Hmissing _ eq_refl eq_refl).
    exists ("predict/1.mp4", ∅). split; [left | reflexivity]. }
  split.
  { destruct (load_data_failures Examples.unlabeled_video_dataset
                Examples._labeled_videos
                (Video.with_stage (Some Video.PREDICTING) Examples.preprocess)
                "predict/" ∅) as (_ & _ & Hother).
    exact (Hother _ eq_refl eq_refl). }
  destruct (load_data_failures Examples.labeled_encoded_video_dataset
              Examples._labeled_videos
              (Video.with_stage (Some Video.TRAINING) Examples.preprocess)
              "nowhere/" ∅) as (Hfails & _ & _).
  exact (Hfails _ eq_refl).
Defined.

(** Loading the training folder over a stale [num_classes]. *)
Lemma load_data_overwrites_num_classes_witness :
  (Video.load_data Examples.labeled_encoded_video_dataset Examples._labeled_videos
     (Video.with_stage (Some Video.TRAINING) Examples.preprocess) "train/"
     (<["num_classes" := VInt 7]> {[ "name" := VStr "train" ]})).2
  = <["num_classes" := VInt 2]> {[ "name" := VStr "train" ]}.
Proof.
  destruct (load_data_overwrites_num_classes Examples.labeled_encoded_video_dataset
              Examples._labeled_videos
              (Video.with_stage (Some Video.TRAINING) Examples.preprocess) "train/"
              (<["num_classes" := VInt 7]> {[ "name" := VStr "train" ]})
              Examples.videos _ eq_refl eq_refl)
    as (labels & Hlabels & _ & _ & _ & Hover).
  injection Hlabels as <-.
  exact (Hover (VInt 7) {[ "name" := VStr "train" ]} eq_refl).
Defined.

(** A head function is called with one feature and two classes. *)
Lemma head_is_built_for_one_feature_witness :
  SemanticSegmentation.head
    (SemanticSegmentation.__init__ Examples.module_nonempty Examples.Conv2d
       (Examples.segmentation_call (SemanticSegmentation.backbone_name "resnet18")
          (Some (SemanticSegmentation.head_function
                   (fun _ _ : Z => "Linear")))
          None))
  = "Linear"
  ∧ SemanticSegmentation.head
      (SemanticSegmentation.__init__ Examples.module_nonempty Examples.Conv2d
         (Examples.segmentation_call (SemanticSegmentation.backbone_pair "vgg" 4096%Z)
            None None))
    = Examples.Conv2d 1 2 1.
Proof.
  split.
  - destruct (head_is_built_for_one_feature Examples.module_nonempty Examples.Conv2d
                (Examples.segmentation_call (SemanticSegmentation.backbone_name "resnet18")
                   (Some (SemanticSegmentation.head_function (fun _ _ : Z => "Linear")))
                   None)) as (_ & Hfunction & _).
    exact (Hfunction (fun _ _ : Z => "Linear") eq_refl eq_refl).
  - destruct (head_is_built_for_one_feature Examples.module_nonempty Examples.Conv2d
                (Examples.segmentation_call
                   (SemanticSegmentation.backbone_pair "vgg" 4096%Z) None None))
      as (Hdefault & _ & _).
    exact (Hdefault eq_refl).
Defined.

(** An empty container as head and an empty mapping as serializer. *)
Lemma false_values_are_replaced_by_the_defaults_witness :
  SemanticSegmentation.head
    (SemanticSegmentation.__init__ Examples.module_nonempty Examples.Conv2d
       (Examples.segmentation_call (SemanticSegmentation.backbone_name "resnet18")
          (Some (SemanticSegmentation.head_module "Sequential()"))
          (Some (SemanticSegmentation.serializer_mapping ∅))))
  = Examples.Conv2d 1 2 1
  ∧ SemanticSegmentation.serializer
      (SemanticSegmentation.task
         (SemanticSegmentation.__init__ Examples.module_nonempty Examples.Conv2d
            (Examples.segmentation_call (SemanticSegmentation.backbone_name "resnet18")
               (Some (SemanticSegmentation.head_module "Sequential()"))
               (Some (SemanticSegmentation.serializer_mapping ∅)))))
    = SemanticSegmentation.Classes false.
Proof.
  destruct (false_values_are_replaced_by_the_defaults Examples.module_nonempty
              Examples.Conv2d
              (Examples.segmentation_call (SemanticSegmentation.backbone_name "resnet18")
                 (Some (SemanticSegmentation.head_module "Sequential()"))
                 (Some (SemanticSegmentation.serializer_mapping ∅))))
    as (Hhead & _ & Hserializer & _).
  split; [exact (Hhead "Sequential()" eq_refl eq_refl) | exact (Hserializer eq_refl)].
Defined.

(** [SemanticSegmentation(num_classes=2, backbone=(vgg, 4096))]. *)
Lemma backbone_pair_is_dropped_witness :
  SemanticSegmentation.backbone
    (SemanticSegmentation.__init__ Examples.module_nonempty Examples.Conv2d
       (Examples.segmentation_call (SemanticSegmentation.backbone_pair "vgg" 4096%Z)
          None None))
  = None
  ∧ SemanticSegmentation.forward Examples.call_module
      (SemanticSegmentation.__init__ Examples.module_nonempty Examples.Conv2d
         (Examples.segmentation_call (SemanticSegmentation.backbone_pair "vgg" 4096%Z)
            None None))
      ["image"]
    = Err (TypeError "'NoneType' object is not callable").
Proof.
  destruct (backbone_pair_is_dropped Examples.call_module Examples.module_nonempty
              Examples.Conv2d
              (Examples.segmentation_call (SemanticSegmentation.backbone_pair "vgg" 4096%Z)
                 None None)
              "vgg" 4096%Z ["image"] eq_refl)
    as (Hnone & _ & _ & Hforward).
  split; [exact Hnone | exact Hforward].
Defined.
